(** * mt5-bot: position sizing, order levels and the configuration store

    A shallow embedding of [test-function.py] (lot sizing and the
    stop-loss / take-profit levels of a test order) and of
    [config_manager.py] (dot-path [get] and [set] on the loaded
    document), with the properties of the specification proved or
    refuted on it.

    Numbers.  Python floats are modelled by exact rationals ([Q]): the
    development follows the arithmetic the code writes down, not the
    rounding of binary64.  Integers ([50], [100], [2]) embed in [Q].
    Equality of volumes and prices is [Qeq] ([==]).  The module
    [Binary64] runs the lot sizing on IEEE 754 numbers as well, to
    check the sample inputs against the floats of the interpreter.

    Exceptions.  A Python expression that can raise evaluates to a value
    of [py A = pyexn + A]; [try ... except] is a [match] on it.

    The configuration document is the tree [json.load] builds and
    [json.dump] can write; [set] stores its value at one place of that
    tree, no object is shared between two places. *)

From Stdlib Require Import ZArith QArith Qround Qabs Lia Lqa Ascii String.
From Stdlib Require Import SpecFloat.
From stdpp Require Import base option list strings gmap.

Local Open Scope Z_scope.
Local Open Scope Q_scope.
Local Open Scope string_scope.

(** ** Exceptions and the error monad *)

Inductive pyexn : Type :=
| ZeroDivisionError
| KeyError (key : string)
| TypeError
| IndexError
| ValueError
| OverflowError
| GatewayError.

Definition py (A : Type) : Type := (pyexn + A)%type.

Definition ret {A : Type} (a : A) : py A := inr a.
Definition raise {A : Type} (e : pyexn) : py A := inl e.
Definition bind {A B : Type} (m : py A) (k : A -> py B) : py B :=
  match m with
  | inl e => inl e
  | inr a => k a
  end.

Notation "'let*' x ':=' m 'in' k" := (bind m (fun x => k))
  (at level 10, x name, m at level 100, k at level 200).

(** ** Python arithmetic on rationals *)

(** [a / b] raises [ZeroDivisionError] when [b] is zero. *)
Definition py_div (a b : Q) : py Q :=
  if Qeq_bool b 0 then raise ZeroDivisionError else ret (a / b).

(** [round(x)] with one argument: the nearest integer, ties to the even
    one. *)
Definition py_round (x : Q) : Z :=
  let f := Qfloor x in
  match Qcompare (x - inject_Z f) (1 # 2) with
  | Lt => f
  | Gt => (f + 1)%Z
  | Eq => if Z.even f then f else (f + 1)%Z
  end.

(** [max(a, b)] returns [a] unless [b > a]; [min(a, b)] returns [a]
    unless [b < a]. *)
Definition py_max (a b : Q) : Q := if Qlt_le_dec a b then b else a.
Definition py_min (a b : Q) : Q := if Qlt_le_dec b a then b else a.

(** ** Strings *)

(** [s.endswith(suffix)]. *)
Definition endswith (s suffix : string) : bool :=
  let n := String.length s in
  let k := String.length suffix in
  (k <=? n)%nat && String.eqb (String.substring (n - k) k s) suffix.

Definition upper_ascii (c : Ascii.ascii) : Ascii.ascii :=
  let n := Ascii.nat_of_ascii c in
  if ((97 <=? n) && (n <=? 122))%nat then Ascii.ascii_of_nat (n - 32) else c.

(** [s.upper()] on the ASCII letters; the other characters stay as
    they are, and none of them becomes a letter of [BUY]. *)
Fixpoint upper (s : string) : string :=
  match s with
  | EmptyString => EmptyString
  | String c rest => String (upper_ascii c) (upper rest)
  end.

(** ** The terminal gateway ([MetaTrader5] module)

    What the scripts read from the terminal.  The gateway is an
    external process: its replies are taken as given.  A call is a
    function of its argument here, so two calls with the same symbol
    inside one run see the same snapshot. *)

(** The fields of [mt5.symbol_info(symbol)] the scripts use. *)
Record SymbolInfo : Type := {
  visible : bool;
  trade_tick_value : Q;
  trade_tick_size : Q;
  volume_min : Q;
  volume_max : Q;
  volume_step : Q
}.

(** The fields of [mt5.symbol_info_tick(symbol)] the scripts use. *)
Record Tick : Type := { bid : Q; ask : Q }.

Inductive mt5_order_type : Type := ORDER_TYPE_BUY | ORDER_TYPE_SELL.

(** The [request] dictionary of [place_test_order].  The three entries
    whose value is a fixed constant of the [MetaTrader5] module
    ([action], [type_filling], [type_time]) are left out. *)
Record Request : Type := {
  req_symbol : string;
  req_volume : Q;
  req_type : mt5_order_type;
  req_price : Q;
  req_sl : Q;
  req_tp : Q;
  req_deviation : Z;
  req_magic : Z;
  req_comment : string
}.

(** The calls the scripts make.  [symbol_info] gives [None] for an
    unknown symbol, and the call itself may raise; [order_send] is
    reduced to the [retcode] of its acknowledgement. *)
Record Mt5 : Type := {
  initialize : bool;
  symbol_info : string -> py (option SymbolInfo);
  symbol_select : string -> bool;
  symbol_info_tick : string -> option Tick;
  order_send : Request -> Z;
  TRADE_RETCODE_DONE : Z
}.

(** What a function writes with [print]; only the message of the lot
    sizing is recorded. *)
Inductive event : Type :=
| ErrorCalculatingLotSize (e : pyexn).

(** A call: what it printed, and the value it returned or the
    exception it let through. *)
Record outcome (A : Type) : Type := {
  stdout : list event;
  returned : py A
}.
Arguments stdout {A} _.
Arguments returned {A} _.

(** ** [test-function.py] *)

Module TestFunction.

Section WithGateway.

Variable mt5 : Mt5.

(** [validate_symbol(symbol)] *)
Definition validate_symbol (symbol : string) : py bool :=
  let* si := symbol_info mt5 symbol in
  match si with
  | None => ret false
  | Some info =>
      if negb (visible info) then
        if negb (symbol_select mt5 symbol) then ret false else ret true
      else ret true
  end.

(** Lines 52-54: the value of one pip, [0.0001] of price, or [0.01]
    for a symbol whose name ends in [JPY]. *)
Definition pip_value (symbol : string) (tick_value tick_size : Q) : py Q :=
  let* r := py_div 0.0001 tick_size in
  let pip_value := tick_value * r in
  if endswith symbol "JPY" then
    let* r := py_div 0.01 tick_size in
    ret (tick_value * r)
  else ret pip_value.

(** Line 56: [risk_amount / (stop_loss_pips * pip_value)]. *)
Definition raw_lot_size (info : SymbolInfo) (symbol : string)
    (risk_amount stop_loss_pips : Q) : py Q :=
  let* pip_value :=
    pip_value symbol (trade_tick_value info) (trade_tick_size info) in
  py_div risk_amount (stop_loss_pips * pip_value).

(** Line 59: [round(lot_size / lot_step) * lot_step]. *)
Definition rounded_lot_size (info : SymbolInfo) (symbol : string)
    (risk_amount stop_loss_pips : Q) : py Q :=
  let* lot_size := raw_lot_size info symbol risk_amount stop_loss_pips in
  let* steps := py_div lot_size (volume_step info) in
  ret (inject_Z (py_round steps) * volume_step info).

(** Lines 45-64, the [try] block once [symbol_info] is not [None]. *)
Definition lot_size_body (info : SymbolInfo) (symbol : string)
    (risk_amount stop_loss_pips : Q) : py Q :=
  let min_lot := volume_min info in
  let max_lot := volume_max info in
  let* lot_size := rounded_lot_size info symbol risk_amount stop_loss_pips in
  ret (py_max min_lot (py_min lot_size max_lot)).

(** Lines 66-68, [except Exception as e]: the message is printed and
    [min_lot] is returned when the name is bound, [0.01] otherwise. *)
Definition except_handler (locals_min_lot : option Q) (e : pyexn)
    : outcome Q :=
  {| stdout := [ErrorCalculatingLotSize e];
     returned := ret (match locals_min_lot with
                      | Some min_lot => min_lot
                      | None => 0.01
                      end) |}.

(** [calculate_safe_lot_size(symbol, risk_amount, stop_loss_pips)] *)
Definition calculate_safe_lot_size (symbol : string)
    (risk_amount stop_loss_pips : Q) : outcome Q :=
  match symbol_info mt5 symbol with
  | inl e => except_handler None e
  | inr None => {| stdout := []; returned := ret 0.01 |}
  | inr (Some info) =>
      match lot_size_body info symbol risk_amount stop_loss_pips with
      | inl e => except_handler (Some (volume_min info)) e
      | inr lot_size => {| stdout := []; returned := ret lot_size |}
      end
  end.

(** The price levels of an order, as lines 103-122 leave them. *)
Record Levels : Type := {
  price : Q;
  stop_loss : Q;
  take_profit : Q;
  order_kind : mt5_order_type
}.

(** Lines 103-122 of [place_test_order], as a function of the names
    they read: [symbol], [order_type], [tick], [stop_loss_pips]. *)
Definition order_levels (symbol order_type : string) (tick : Tick)
    (stop_loss_pips : Q) : Levels :=
  let lv :=
    if String.eqb (upper order_type) "BUY" then
      let price := ask tick in
      {| price := price;
         stop_loss := price - (stop_loss_pips * 0.0001);
         take_profit := price + (stop_loss_pips * 2 * 0.0001);
         order_kind := ORDER_TYPE_BUY |}
    else
      let price := bid tick in
      {| price := price;
         stop_loss := price + (stop_loss_pips * 0.0001);
         take_profit := price - (stop_loss_pips * 2 * 0.0001);
         order_kind := ORDER_TYPE_SELL |} in
  if endswith symbol "JPY" then
    let stop_loss_pips := stop_loss_pips * 100 in
    if String.eqb (upper order_type) "BUY" then
      {| price := price lv;
         stop_loss := price lv - (stop_loss_pips * 0.01);
         take_profit := price lv + (stop_loss_pips * 2 * 0.01);
         order_kind := order_kind lv |}
    else
      {| price := price lv;
         stop_loss := price lv + (stop_loss_pips * 0.01);
         take_profit := price lv - (stop_loss_pips * 2 * 0.01);
         order_kind := order_kind lv |}
  else lv.

(** What [place_test_order] did: the request it sent, if it got that
    far, and the boolean it returned. *)
Record Placement : Type := {
  sent : option Request;
  sizing_stdout : list event;
  success : bool
}.

Definition not_placed : Placement :=
  {| sent := None; sizing_stdout := []; success := false |}.

(** [place_test_order(symbol, order_type, risk_amount)].  Every
    exception of the body is caught and turned into [False]. *)
Definition place_test_order (symbol order_type : string) (risk_amount : Q)
    : Placement :=
  if negb (initialize mt5) then not_placed
  else
    match validate_symbol symbol with
    | inl _ => not_placed
    | inr false => not_placed
    | inr true =>
        match symbol_info_tick mt5 symbol with
        | None => not_placed
        | Some tick =>
            let stop_loss_pips := 50 in
            let sizing :=
              calculate_safe_lot_size symbol risk_amount stop_loss_pips in
            match returned sizing with
            | inl _ =>
                {| sent := None; sizing_stdout := stdout sizing;
                   success := false |}
            | inr lot_size =>
                let lv := order_levels symbol order_type tick stop_loss_pips in
                let request :=
                  {| req_symbol := symbol;
                     req_volume := lot_size;
                     req_type := order_kind lv;
                     req_price := price lv;
                     req_sl := stop_loss lv;
                     req_tp := take_profit lv;
                     req_deviation := 20;
                     req_magic := 234000;
                     req_comment := "Test " ++ order_type ++ " order" |} in
                {| sent := Some request;
                   sizing_stdout := stdout sizing;
                   success :=
                     Z.eqb (order_send mt5 request) (TRADE_RETCODE_DONE mt5) |}
            end
        end
    end.

End WithGateway.

End TestFunction.

(** ** [config_manager.py] *)

Module ConfigManager.

(** What [json.load] builds: the document is a tree, an object is a
    [dict] with string keys. *)
#[local] Unset Elimination Schemes.
Inductive json : Type :=
| JNone
| JBool (b : bool)
| JInt (n : Z)
| JFloat (x : Q)
| JStr (s : string)
| JList (items : list json)
| JDict (entries : gmap string json).
#[local] Set Elimination Schemes.

(** [s.split('.')]: the pieces between the dots, never an empty list. *)
Fixpoint split_dot (s : string) : list string :=
  match s with
  | EmptyString => [EmptyString]
  | String c rest =>
      if Ascii.eqb c "."%char then EmptyString :: split_dot rest
      else
        match split_dot rest with
        | [] => [String c EmptyString]
        | piece :: pieces => String c piece :: pieces
        end
  end.

(** [value[key]] with a string [key]: a [dict] looks the key up and
    raises [KeyError] when it is missing; a list or a string accepts
    integer indices only and every other value is not subscriptable,
    which is a [TypeError]. *)
Definition getitem (value : json) (key : string) : py json :=
  match value with
  | JDict entries =>
      match entries !! key with
      | Some v => ret v
      | None => raise (KeyError key)
      end
  | _ => raise TypeError
  end.

(** The loop [for key in keys: value = value[key]] of [get]. *)
Fixpoint get_loop (value : json) (keys : list string) : py json :=
  match keys with
  | [] => ret value
  | key :: keys' =>
      let* value := getitem value key in
      get_loop value keys'
  end.

(** [ConfigManager.get(key_path, default)]: [KeyError] and
    [TypeError] are caught, any other exception passes through. *)
Definition get (config : json) (key_path : string) (default : json)
    : py json :=
  match get_loop config (split_dot key_path) with
  | inr value => ret value
  | inl (KeyError _) => ret default
  | inl TypeError => ret default
  | inl e => raise e
  end.

(** [needle in hay] for two strings: [needle] occurs in [hay]. *)
Fixpoint str_contains (needle hay : string) : bool :=
  String.prefix needle hay ||
  match hay with
  | EmptyString => false
  | String _ rest => str_contains needle rest
  end.

(** [key in value] with a string [key]: the keys of a [dict], the
    items of a list (only a string item can equal [key]), the
    substrings of a string; any other value is not iterable. *)
Definition contains (value : json) (key : string) : py bool :=
  match value with
  | JDict entries => ret (bool_decide (is_Some (entries !! key)))
  | JList items =>
      ret (existsb (fun item => match item with
                                | JStr s => String.eqb key s
                                | _ => false
                                end) items)
  | JStr s => ret (str_contains key s)
  | _ => raise TypeError
  end.

(** [target[key] = value] with a string [key]: only a [dict] takes
    it. *)
Definition setitem (target : json) (key : string) (value : json)
    : py json :=
  match target with
  | JDict entries => ret (JDict (<[key := value]> entries))
  | _ => raise TypeError
  end.

(** [keys[-1]] *)
Definition last_key (keys : list string) : py string :=
  match last keys with
  | Some key => ret key
  | None => raise IndexError
  end.

(** The object [parent] after its entry [key], which the loop went
    into, was changed in place to [child]. *)
Definition seen_from (parent : json) (key : string) (child : json) : json :=
  match parent with
  | JDict entries => JDict (<[key := child]> entries)
  | _ => parent
  end.

(** The body of [set] from [config_ref], with [parents] the keys
    still to go through and [final] the value of [keys[-1]]: the
    object [config_ref] as the body leaves it, and the exception
    that stopped it, if one did.  The objects are changed in place,
    so what was done before an exception stays done. *)
Fixpoint set_loop (config_ref : json) (parents : list string)
    (final : py string) (value : json) : json * py unit :=
  match parents with
  | [] =>
      match (let* key := final in setitem config_ref key value) with
      | inl e => (config_ref, raise e)
      | inr config_ref' => (config_ref', ret tt)
      end
  | key :: parents' =>
      match contains config_ref key with
      | inl e => (config_ref, raise e)
      | inr present =>
          match (if negb present then setitem config_ref key (JDict ∅)
                 else ret config_ref) with
          | inl e => (config_ref, raise e)
          | inr config_ref1 =>
              match getitem config_ref1 key with
              | inl e => (config_ref1, raise e)
              | inr child =>
                  let (child', r) := set_loop child parents' final value in
                  (seen_from config_ref1 key child', r)
              end
          end
      end
  end.

(** [ConfigManager.set(key_path, value)]: the document afterwards
    and the boolean returned; every exception is caught. *)
Definition set (config : json) (key_path : string) (value : json)
    : json * bool :=
  let keys := split_dot key_path in
  let (config', r) :=
    set_loop config (removelast keys) (last_key keys) value in
  (config', match r with inr _ => true | inl _ => false end).

(** [addresses config keys v]: going from [config] through
    dictionaries along [keys] arrives at [v]. *)
Inductive addresses : json -> list string -> json -> Prop :=
| addresses_here (v : json) : addresses v [] v
| addresses_entry (entries : gmap string json) (key : string)
    (keys : list string) (child v : json) :
    entries !! key = Some child ->
    addresses child keys v ->
    addresses (JDict entries) (key :: keys) v.

(** The path is absent from the document. *)
Definition absent (config : json) (key_path : string) : Prop :=
  forall v, ~ addresses config (split_dot key_path) v.

(** [settable config parents]: every key of [parents], taken in turn
    from [config], is either missing from a dictionary or addresses a
    dictionary, and so does the place where they end. *)
Inductive settable : json -> list string -> Prop :=
| settable_here (entries : gmap string json) : settable (JDict entries) []
| settable_missing (entries : gmap string json) (key : string)
    (parents : list string) :
    entries !! key = None ->
    settable (JDict entries) (key :: parents)
| settable_entry (entries : gmap string json) (key : string)
    (parents : list string) (child : json) :
    entries !! key = Some child ->
    settable child parents ->
    settable (JDict entries) (key :: parents).

End ConfigManager.

(** ** The lot sizing in binary64

    The same lines of [calculate_safe_lot_size] on IEEE 754 binary64
    numbers, the floats of Python, to run the sample inputs as the
    interpreter does. *)

Module Binary64.

Definition binary64 : Type := spec_float.

(** [float(n)] for an integer [n]. *)
Definition of_Z (n : Z) : binary64 := binary_normalize 53 1024 n 0 false.

(** The float nearest to the rational [q], for a numerator and a
    denominator that are floats themselves (below [2 ^ 53]): what a
    decimal literal such as [0.0001] denotes. *)
Definition of_Q (q : Q) : binary64 :=
  SFdiv 53 1024 (of_Z (Qnum q)) (of_Z (Zpos (Qden q))).

Definition fmul (a b : binary64) : binary64 := SFmul 53 1024 a b.

(** [a / b] raises [ZeroDivisionError] when [b] is a zero. *)
Definition fdiv (a b : binary64) : py binary64 :=
  match b with
  | S754_zero _ => raise ZeroDivisionError
  | _ => ret (SFdiv 53 1024 a b)
  end.

(** The integer nearest to [m * 2 ^ e], ties to the even one. *)
Definition round_scaled (m e : Z) : Z :=
  if (0 <=? e)%Z then (m * 2 ^ e)%Z
  else
    let d := (2 ^ (- e))%Z in
    let q := (m / d)%Z in
    match (2 * (m mod d) ?= d)%Z with
    | Lt => q
    | Gt => (q + 1)%Z
    | Eq => if Z.even q then q else (q + 1)%Z
    end.

(** [round(x)]: [ValueError] on a NaN, [OverflowError] on an
    infinity. *)
Definition fround (x : binary64) : py Z :=
  match x with
  | S754_nan => raise ValueError
  | S754_infinity _ => raise OverflowError
  | S754_zero _ => ret 0%Z
  | S754_finite s m e =>
      ret (round_scaled (if s then Z.neg m else Z.pos m) e)
  end.

(** [max(a, b)] and [min(a, b)]: a comparison with a NaN is false. *)
Definition fmax (a b : binary64) : binary64 := if SFltb a b then b else a.
Definition fmin (a b : binary64) : binary64 := if SFltb b a then b else a.

(** Lines 52-54. *)
Definition pip_value (symbol : string) (tick_value tick_size : binary64)
    : py binary64 :=
  let* r := fdiv (of_Q 0.0001) tick_size in
  let pip_value := fmul tick_value r in
  if endswith symbol "JPY" then
    let* r := fdiv (of_Q 0.01) tick_size in
    ret (fmul tick_value r)
  else ret pip_value.

(** Line 56. *)
Definition raw_lot_size (symbol : string) (tick_value tick_size : binary64)
    (risk_amount stop_loss_pips : binary64) : py binary64 :=
  let* pip_value := pip_value symbol tick_value tick_size in
  fdiv risk_amount (fmul stop_loss_pips pip_value).

(** Lines 52-64 on the values read from the metadata. *)
Definition lot_size_body (symbol : string)
    (tick_value tick_size min_lot max_lot lot_step : binary64)
    (risk_amount stop_loss_pips : binary64) : py binary64 :=
  let* lot_size :=
    raw_lot_size symbol tick_value tick_size risk_amount stop_loss_pips in
  let* steps := fdiv lot_size lot_step in
  let* n := fround steps in
  let lot_size := fmul (of_Z n) lot_step in
  ret (fmax min_lot (fmin lot_size max_lot)).

(** The [try] block on the floats nearest to the metadata [info] and
    to the two arguments. *)
Definition run (info : SymbolInfo) (symbol : string)
    (risk_amount stop_loss_pips : Q) : py binary64 :=
  lot_size_body symbol
    (of_Q (trade_tick_value info)) (of_Q (trade_tick_size info))
    (of_Q (volume_min info)) (of_Q (volume_max info))
    (of_Q (volume_step info)) (of_Q risk_amount) (of_Q stop_loss_pips).

End Binary64.

Import TestFunction.
Import ConfigManager.

(** ** Sample terminals and documents *)

(** A terminal that is up, knows the symbols with [Some] metadata in
    [infos], quotes every symbol at [tick] and accepts every order. *)
Definition terminal (infos : string -> option SymbolInfo) (tick : Tick) : Mt5 :=
  {| initialize := true;
     symbol_info := fun symbol => ret (infos symbol);
     symbol_select := fun _ => true;
     symbol_info_tick := fun _ => Some tick;
     order_send := fun _ => 10009%Z;
     TRADE_RETCODE_DONE := 10009%Z |}.

(** The metadata of the specification's scenarios. *)
Definition fx_info : SymbolInfo :=
  {| visible := true;
     trade_tick_value := 1.0;
     trade_tick_size := 0.00001;
     volume_min := 0.01;
     volume_max := 100;
     volume_step := 0.01 |}.

Definition fx_tick : Tick := {| bid := 1.10490; ask := 1.10500 |}.

Definition fx_terminal : Mt5 :=
  terminal (fun symbol =>
              if String.eqb symbol "EURUSD" then Some fx_info
              else if String.eqb symbol "USDJPY" then Some fx_info
              else None) fx_tick.

(** Metadata whose minimum is not a whole number of steps. *)
Definition odd_step_info : SymbolInfo :=
  {| visible := true;
     trade_tick_value := 1.0;
     trade_tick_size := 0.00001;
     volume_min := 0.03;
     volume_max := 100;
     volume_step := 0.02 |}.

(** Metadata whose minimum is above its maximum. *)
Definition inverted_info : SymbolInfo :=
  {| visible := true;
     trade_tick_value := 1.0;
     trade_tick_size := 0.00001;
     volume_min := 2;
     volume_max := 1;
     volume_step := 0.01 |}.

(** Metadata without a tick size. *)
Definition no_tick_size_info : SymbolInfo :=
  {| visible := true;
     trade_tick_value := 1.0;
     trade_tick_size := 0;
     volume_min := 0.01;
     volume_max := 100;
     volume_step := 0.01 |}.

(** A terminal that answers every symbol with [info]. *)
Definition terminal_of (info : SymbolInfo) : Mt5 :=
  terminal (fun _ => Some info) fx_tick.

(** A terminal whose [symbol_info] call raises. *)
Definition broken_terminal : Mt5 :=
  {| initialize := true;
     symbol_info := fun _ => raise GatewayError;
     symbol_select := fun _ => true;
     symbol_info_tick := fun _ => Some fx_tick;
     order_send := fun _ => 10009%Z;
     TRADE_RETCODE_DONE := 10009%Z |}.


(** The pip is [0.01] of price for a symbol in [JPY] and [0.0001]
    otherwise. *)
Definition pip_unit (symbol : string) : Q :=
  if endswith symbol "JPY" then 0.01 else 0.0001.

(** As the specification words the stop distance: the pips, taken a
    hundredfold for a symbol in [JPY], times the pip. *)
Definition price_distance (symbol : string) (stop_loss_pips : Q) : Q :=
  (if endswith symbol "JPY" then 100 * stop_loss_pips else stop_loss_pips)
  * pip_unit symbol.

(** A document with the [trading] section and the list of symbols. *)
Definition sample_config : json :=
  JDict {[ "trading" := JDict {[ "risk_amount" := JFloat 50.0 ]};
           "symbols" := JList [JStr "EURUSD"; JStr "GBPUSD"] ]}.

(** ** The rest of [config_manager.py] *)

Module ConfigStore.

(** [bool(v)]: [None], [False], a zero, and an empty string, list or
    dictionary are false. *)
Definition truthy (v : json) : bool :=
  match v with
  | JNone => false
  | JBool b => b
  | JInt n => negb (n =? 0)%Z
  | JFloat x => negb (Qeq_bool x 0)
  | JStr s => negb (String.eqb s "")
  | JList items => match items with [] => false | _ :: _ => true end
  | JDict entries => negb (size entries =? 0)%nat
  end.

(** The number a value stands for in a comparison with a number: an
    integer, a float, or a boolean ([True] is 1); comparing anything
    else with a number is a [TypeError]. *)
Definition as_number (v : json) : py Q :=
  match v with
  | JInt n => ret (inject_Z n)
  | JFloat x => ret x
  | JBool b => ret (if b then 1 else 0)
  | _ => raise TypeError
  end.

(** [v <= bound] and [v < bound] for a number [bound]. *)
Definition py_le (v : json) (bound : Q) : py bool :=
  let* x := as_number v in ret (Qle_bool x bound).
Definition py_lt (v : json) (bound : Q) : py bool :=
  let* x := as_number v in ret (negb (Qle_bool bound x)).

Definition required_sections : list string :=
  ["trading"; "analysis"; "symbols"; "logging"; "mt5"].

(** Lines 62-65: whether the loop finds a section that is not in the
    document. *)
Fixpoint missing_section (config : json) (sections : list string) : py bool :=
  match sections with
  | [] => ret false
  | section :: sections' =>
      let* present := contains config section in
      if negb present then ret true else missing_section config sections'
  end.

(** [ConfigManager.validate_config()] on the document [config]; it has
    no [try], so an exception goes to the caller. *)
Definition validate_config (config : json) : py bool :=
  let* missing := missing_section config required_sections in
  if (missing : bool) then ret false else
  let* trading := getitem config "trading" in
  let* risk_amount := getitem trading "risk_amount" in
  let* not_positive := py_le risk_amount 0 in
  if (not_positive : bool) then ret false else
  let* max_daily_loss := getitem trading "max_daily_loss" in
  let* not_positive := py_le max_daily_loss 0 in
  if (not_positive : bool) then ret false else
  let* min_risk_reward := getitem trading "min_risk_reward" in
  let* too_small := py_lt min_risk_reward 1.0 in
  if (too_small : bool) then ret false else
  let* symbols := getitem config "symbols" in
  if negb (truthy symbols) then ret false else ret true.

(** The document of [create_default_config]. *)
Definition default_config : json :=
  JDict {[
    "trading" := JDict {[
      "risk_amount" := JFloat 50.0;
      "max_daily_loss" := JFloat 200.0;
      "min_risk_reward" := JFloat 2.0;
      "max_spread_pips" := JFloat 3.0;
      "max_risk_percent" := JFloat 5.0;
      "magic_number" := JInt 234567 ]};
    "analysis" := JDict {[
      "lookback_period" := JInt 20;
      "macd_fast" := JInt 12;
      "macd_slow" := JInt 26;
      "macd_signal" := JInt 9;
      "support_resistance_touches" := JInt 2;
      "candle_body_threshold" := JFloat 1.5 ]};
    "symbols" := JList [
      JDict {[ "name" := JStr "EURUSD"; "enabled" := JBool true;
               "max_spread" := JFloat 0.0003; "timeframe" := JStr "M1" ]};
      JDict {[ "name" := JStr "GBPUSD"; "enabled" := JBool true;
               "max_spread" := JFloat 0.0004; "timeframe" := JStr "M1" ]} ];
    "logging" := JDict {[
      "enabled" := JBool true;
      "level" := JStr "INFO";
      "log_trades" := JBool true;
      "log_analysis" := JBool false ]};
    "mt5" := JDict {[
      "terminal_paths" := JList [
        JStr "C:\Program Files\MetaTrader 5\terminal64.exe";
        JStr "C:\Program Files (x86)\MetaTrader 5\terminal64.exe" ];
      "connection_timeout" := JInt 60;
      "retry_attempts" := JInt 3 ]}
  ]}.

(** The configuration file: not there, there but not to be opened,
    there with a text that is no JSON, or there with the text of a
    document.  Writing and reading the text of a document are taken
    as inverse of each other. *)
Inductive file : Type :=
| Missing
| Unreadable
| Garbled
| Holds (document : json).

(** The file and whether it can be opened for writing. *)
Record disk : Type := { config_file : file; writable : bool }.

(** A [ConfigManager] object, [self.config], with the disk it works
    on. *)
Record manager : Type := { config : json; on_disk : disk }.

(** [create_default_config()]: the default document is written and
    then becomes the document of the manager; when the file cannot be
    written the exception is caught and nothing changes. *)
Definition create_default_config (self : manager) : manager :=
  if writable (on_disk self) then
    {| config := default_config;
       on_disk := {| config_file := Holds default_config;
                     writable := true |} |}
  else self.

(** [load_config()]: the manager afterwards and the boolean
    returned. *)
Definition load_config (self : manager) : manager * bool :=
  match config_file (on_disk self) with
  | Missing => (create_default_config self, false)
  | Unreadable => (self, false)
  | Garbled => (self, false)
  | Holds document =>
      let self' := {| config := document; on_disk := on_disk self |} in
      match validate_config document with
      | inr true => (self', true)
      | inr false => (self', false)
      | inl _ => (self', false)
      end
  end.

(** [save_config()] *)
Definition save_config (self : manager) : manager * bool :=
  if writable (on_disk self) then
    ({| config := config self;
        on_disk := {| config_file := Holds (config self);
                      writable := true |} |}, true)
  else (self, false).

(** [ConfigManager(config_file)]: the document starts empty and
    [load_config] is called, its result dropped. *)
Definition init (d : disk) : manager :=
  fst (load_config {| config := JDict ∅; on_disk := d |}).

(** The exceptions of the accessors: [AttributeError], when [get] is
    called on a value that is no dictionary, besides those above. *)
Inductive accessor_exn : Type :=
| AttributeError
| Raised (e : pyexn).

(** [obj.get(key, default)]: a method of dictionaries only. *)
Definition dict_get (obj : json) (key : string) (default : json)
    : accessor_exn + json :=
  match obj with
  | JDict entries =>
      inr (match entries !! key with Some v => v | None => default end)
  | _ => inl AttributeError
  end.

(** [get_trading_config()], [get_analysis_config()],
    [get_mt5_config()] *)
Definition get_trading_config (config : json) : accessor_exn + json :=
  dict_get config "trading" (JDict ∅).
Definition get_analysis_config (config : json) : accessor_exn + json :=
  dict_get config "analysis" (JDict ∅).
Definition get_mt5_config (config : json) : accessor_exn + json :=
  dict_get config "mt5" (JDict ∅).

(** [is_logging_enabled()]: the value found, not turned into a
    boolean. *)
Definition is_logging_enabled (config : json) : accessor_exn + json :=
  match dict_get config "logging" (JDict ∅) with
  | inl e => inl e
  | inr logging => dict_get logging "enabled" (JBool true)
  end.





(** What the loop of [get] found, if it found something. *)
Definition found (r : py json) : option json :=
  match r with
  | inr v => Some v
  | inl _ => None
  end.

Definition is_dict (v : json) : Prop :=
  exists entries : gmap string json, v = JDict entries.

End ConfigStore.

(** ** [account-info.py] *)

Module AccountInfo.









End AccountInfo.

(** ** More sample documents *)

(** The sections of a document whose [risk_amount] is a text. *)
Definition text_risk_entries : gmap string json :=
  {[ "trading" := JDict {[ "risk_amount" := JStr "50" ]};
     "analysis" := JDict ∅;
     "symbols" := JList [JStr "EURUSD"];
     "logging" := JDict ∅;
     "mt5" := JDict ∅ ]}.

(** A manager whose file holds [sample_config], which lacks sections. *)
Definition sample_manager : ConfigStore.manager :=
  {| ConfigStore.config := JDict ∅;
     ConfigStore.on_disk :=
       {| ConfigStore.config_file := ConfigStore.Holds sample_config;
          ConfigStore.writable := true |} |}.

(** A disk without the file, which can be written. *)
Definition blank_disk : ConfigStore.disk :=
  {| ConfigStore.config_file := ConfigStore.Missing;
     ConfigStore.writable := true |}.



(** ** Python arithmetic *)

Lemma py_div_zero (a b : Q) : b == 0 -> py_div a b = raise ZeroDivisionError.
Proof.
  intros Hb. unfold py_div.
  destruct (Qeq_bool b 0) eqn:E; [reflexivity|].
  apply Qeq_bool_neq in E. contradiction.
Qed.

Lemma py_div_nonzero (a b : Q) : ~ b == 0 -> py_div a b = ret (a / b).
Proof.
  intros Hb. unfold py_div.
  destruct (Qeq_bool b 0) eqn:E; [|reflexivity].
  apply Qeq_bool_eq in E. contradiction.
Qed.

Lemma py_div_cases (a b : Q) :
  (b == 0 /\ py_div a b = raise ZeroDivisionError) \/
  (~ b == 0 /\ py_div a b = ret (a / b)).
Proof.
  destruct (Qeq_dec b 0) as [Hb|Hb].
  - left. split; [exact Hb | apply py_div_zero, Hb].
  - right. split; [exact Hb | apply py_div_nonzero, Hb].
Qed.






Lemma py_min_left (a b : Q) : py_min a b <= a.
Proof.
  unfold py_min. destruct (Qlt_le_dec b a) as [H|H].
  - apply Qlt_le_weak, H.
  - apply Qle_refl.
Qed.



(** A size that is not above the minimum comes out as the minimum
    itself. *)
Lemma limits_at_most_min (min_lot max_lot lot_size : Q) :
  lot_size <= min_lot ->
  py_max min_lot (py_min lot_size max_lot) = min_lot.
Proof.
  intros Hle. unfold py_max.
  destruct (Qlt_le_dec min_lot (py_min lot_size max_lot)) as [H|H];
    [|reflexivity].
  exfalso. apply (Qlt_irrefl min_lot).
  eapply Qlt_le_trans; [exact H|].
  eapply Qle_trans; [apply py_min_left | exact Hle].
Qed.


(** ** The lot sizing *)

Lemma pip_value_zero_tick_size (symbol : string) (tick_value tick_size : Q) :
  tick_size == 0 ->
  pip_value symbol tick_value tick_size = raise ZeroDivisionError.
Proof.
  intros Hz. unfold pip_value.
  rewrite (py_div_zero _ _ Hz). reflexivity.
Qed.

Lemma pip_value_nonzero_tick_size (symbol : string) (tick_value tick_size : Q) :
  ~ tick_size == 0 ->
  pip_value symbol tick_value tick_size =
  ret (tick_value * (pip_unit symbol / tick_size)).
Proof.
  intros Hz. unfold pip_value, pip_unit.
  rewrite !(py_div_nonzero _ _ Hz). cbn.
  destruct (endswith symbol "JPY"); reflexivity.
Qed.

(** The only exception the [try] block raises after the metadata is
    read is a division by zero. *)
Lemma lot_size_body_raises (info : SymbolInfo) (symbol : string)
    (risk_amount stop_loss_pips : Q) (e : pyexn) :
  lot_size_body info symbol risk_amount stop_loss_pips = inl e ->
  e = ZeroDivisionError.
Proof.
  unfold lot_size_body, rounded_lot_size, raw_lot_size.
  destruct (Qeq_dec (trade_tick_size info) 0) as [Hts|Hts].
  - rewrite (pip_value_zero_tick_size _ _ _ Hts). cbn. congruence.
  - rewrite (pip_value_nonzero_tick_size _ _ _ Hts). cbn.
    destruct (py_div_cases risk_amount
                (stop_loss_pips *
                 (trade_tick_value info *
                  (pip_unit symbol / trade_tick_size info))))
      as [[_ ->]|[_ ->]]; cbn; [congruence|].
    match goal with
    | |- context [py_div ?a (volume_step info)] =>
        destruct (py_div_cases a (volume_step info)) as [[_ ->]|[_ ->]]
    end; cbv [bind ret raise]; congruence.
Qed.

(** A zero tick size, tick value, volume step or stop distance makes
    the [try] block divide by zero. *)
Lemma lot_size_body_zero (info : SymbolInfo) (symbol : string)
    (risk_amount stop_loss_pips : Q) :
  trade_tick_size info == 0 \/ trade_tick_value info == 0 \/
  volume_step info == 0 \/ stop_loss_pips == 0 ->
  lot_size_body info symbol risk_amount stop_loss_pips =
  raise ZeroDivisionError.
Proof.
  intros Hzero.
  unfold lot_size_body, rounded_lot_size, raw_lot_size.
  destruct (Qeq_dec (trade_tick_size info) 0) as [Hts|Hts].
  { rewrite (pip_value_zero_tick_size _ _ _ Hts). reflexivity. }
  rewrite (pip_value_nonzero_tick_size _ _ _ Hts). cbn.
  match goal with
  | |- context [py_div risk_amount ?d] =>
      destruct (py_div_cases risk_amount d) as [[_ ->]|[Hd ->]]
  end; cbn; [reflexivity|].
  match goal with
  | |- context [py_div ?a (volume_step info)] =>
      destruct (py_div_cases a (volume_step info)) as [[_ ->]|[Hs ->]]
  end; cbn; [reflexivity|].
  exfalso.
  destruct Hzero as [H|[H|[H|H]]].
  - contradiction.
  - apply Hd. rewrite H. ring.
  - contradiction.
  - apply Hd. rewrite H. ring.
Qed.



(** The outcome of the sizing for a symbol the terminal knows. *)
Lemma sizing_known_symbol (mt5 : Mt5) (symbol : string) (info : SymbolInfo)
    (risk_amount stop_loss_pips : Q) :
  symbol_info mt5 symbol = inr (Some info) ->
  calculate_safe_lot_size mt5 symbol risk_amount stop_loss_pips =
  match lot_size_body info symbol risk_amount stop_loss_pips with
  | inl e => {| stdout := [ErrorCalculatingLotSize e];
                returned := inr (volume_min info) |}
  | inr lot_size => {| stdout := []; returned := inr lot_size |}
  end.
Proof.
  intros Hinfo. unfold calculate_safe_lot_size. rewrite Hinfo.
  destruct (lot_size_body info symbol risk_amount stop_loss_pips);
    reflexivity.
Qed.

(** ** Claims on the lot sizing *)




(** With positive tick value, tick size and step, and a stop distance
    that is not zero, the [try] block divides by no zero and the
    rounded size is [round(raw / step) * step]. *)
Lemma rounded_lot_size_regular (info : SymbolInfo) (symbol : string)
    (risk_amount stop_loss_pips : Q) :
  0 < trade_tick_value info -> 0 < trade_tick_size info ->
  0 < volume_step info -> ~ stop_loss_pips == 0 ->
  let pv := trade_tick_value info * (pip_unit symbol / trade_tick_size info) in
  let raw := risk_amount / (stop_loss_pips * pv) in
  0 < pv /\
  raw_lot_size info symbol risk_amount stop_loss_pips = inr raw /\
  rounded_lot_size info symbol risk_amount stop_loss_pips =
  inr (inject_Z (py_round (raw / volume_step info)) * volume_step info).
Proof.
  intros Htv Hts Hstep Hstop pv raw.
  assert (Hunit : 0 < pip_unit symbol).
  { unfold pip_unit. destruct (endswith symbol "JPY"); reflexivity. }
  assert (Hpv : 0 < pv).
  { subst pv. apply Qmult_lt_0_compat; [exact Htv|].
    apply Qlt_shift_div_l; [exact Hts|]. rewrite Qmult_0_l. exact Hunit. }
  assert (Hraw : raw_lot_size info symbol risk_amount stop_loss_pips = inr raw).
  { unfold raw_lot_size.
    rewrite pip_value_nonzero_tick_size by (intros H; rewrite H in Hts; discriminate).
    cbn. fold pv. rewrite py_div_nonzero; [reflexivity|].
    intros H. apply Qmult_integral in H. destruct H as [H|H].
    - contradiction.
    - rewrite H in Hpv. discriminate. }
  split; [exact Hpv|]. split; [exact Hraw|].
  unfold rounded_lot_size. rewrite Hraw. cbn.
  rewrite py_div_nonzero; [reflexivity|].
  intros H. rewrite H in Hstep. discriminate.
Qed.


(** A division by zero in the [try] block ends in the handler: the
    message is printed and the minimum volume is returned. *)
Lemma sizing_zero_division (mt5 : Mt5) (symbol : string) (info : SymbolInfo)
    (risk_amount stop_loss_pips : Q) :
  symbol_info mt5 symbol = inr (Some info) ->
  trade_tick_size info == 0 \/ trade_tick_value info == 0 \/
  volume_step info == 0 \/ stop_loss_pips == 0 ->
  calculate_safe_lot_size mt5 symbol risk_amount stop_loss_pips =
  {| stdout := [ErrorCalculatingLotSize ZeroDivisionError];
     returned := inr (volume_min info) |}.
Proof.
  intros Hinfo Hzero.
  rewrite (sizing_known_symbol _ _ _ _ _ Hinfo).
  rewrite (lot_size_body_zero _ _ _ _ Hzero). reflexivity.
Qed.

(** The sizing always returns a volume. *)
Lemma sizing_returns (mt5 : Mt5) (symbol : string)
    (risk_amount stop_loss_pips : Q) :
  exists v : Q,
    returned (calculate_safe_lot_size mt5 symbol risk_amount stop_loss_pips)
    = inr v.
Proof.
  unfold calculate_safe_lot_size.
  destruct (symbol_info mt5 symbol) as [e|[info|]]; cbn.
  - eexists; reflexivity.
  - destruct (lot_size_body info symbol risk_amount stop_loss_pips);
      cbn; eexists; reflexivity.
  - eexists; reflexivity.
Qed.

(** A rounded size that is not above the minimum: the minimum is
    returned and nothing is printed. *)
Lemma sizing_at_most_min (mt5 : Mt5) (symbol : string) (info : SymbolInfo)
    (risk_amount stop_loss_pips lot_size : Q) :
  symbol_info mt5 symbol = inr (Some info) ->
  rounded_lot_size info symbol risk_amount stop_loss_pips = inr lot_size ->
  lot_size <= volume_min info ->
  calculate_safe_lot_size mt5 symbol risk_amount stop_loss_pips =
  {| stdout := []; returned := inr (volume_min info) |}.
Proof.
  intros Hinfo Hr Hle.
  rewrite (sizing_known_symbol _ _ _ _ _ Hinfo).
  unfold lot_size_body. rewrite Hr. cbn.
  rewrite (limits_at_most_min _ _ _ Hle). reflexivity.
Qed.




(** C4 (as stated, refuted).  For USDJPY the rounded size is 0, below
    the minimum, and the sizing returns 0.01; for EURUSD with a risk
    amount of 5 the rounded size is 0.01, within the limits, and the
    sizing returns 0.01.  The two outcomes are equal: the caller cannot
    tell the clamped one from the exact one. *)
Lemma sizing_clamp_not_observable :
  exists clamped exact : Q,
    rounded_lot_size fx_info "USDJPY" 50 50 = inr clamped /\
    clamped < volume_min fx_info /\
    rounded_lot_size fx_info "EURUSD" 5 50 = inr exact /\
    volume_min fx_info <= exact <= volume_max fx_info /\
    calculate_safe_lot_size fx_terminal "USDJPY" 50 50 =
    calculate_safe_lot_size fx_terminal "EURUSD" 5 50.
Proof.
  eexists. eexists.
  split; [vm_compute; reflexivity|].
  split; [reflexivity|].
  split; [vm_compute; reflexivity|].
  split; [split; vm_compute; discriminate|].
  vm_compute. reflexivity.
Qed.

(** C4 (amended).  When the rounded size is below the minimum volume,
    the sizing returns the minimum volume as a bare number and prints
    nothing; a call whose rounded size is exactly the minimum volume
    has the same outcome, so the outcome carries no mark of the
    clamping. *)
Theorem sizing_clamps_to_min (mt5 : Mt5) (symbol : string) (info : SymbolInfo)
    (risk_amount stop_loss_pips lot_size : Q) :
  symbol_info mt5 symbol = inr (Some info) ->
  rounded_lot_size info symbol risk_amount stop_loss_pips = inr lot_size ->
  lot_size < volume_min info ->
  calculate_safe_lot_size mt5 symbol risk_amount stop_loss_pips =
  {| stdout := []; returned := inr (volume_min info) |} /\
  forall risk_amount' stop_loss_pips' exact : Q,
    rounded_lot_size info symbol risk_amount' stop_loss_pips' = inr exact ->
    exact == volume_min info ->
    calculate_safe_lot_size mt5 symbol risk_amount' stop_loss_pips' =
    calculate_safe_lot_size mt5 symbol risk_amount stop_loss_pips.
Proof.
  intros Hinfo Hr Hlt.
  assert (Hclamped :
    calculate_safe_lot_size mt5 symbol risk_amount stop_loss_pips =
    {| stdout := []; returned := inr (volume_min info) |}).
  { apply (sizing_at_most_min _ _ _ _ _ lot_size Hinfo Hr).
    apply Qlt_le_weak, Hlt. }
  split; [exact Hclamped|].
  intros risk_amount' stop_loss_pips' exact Hr' Hexact.
  rewrite Hclamped.
  apply (sizing_at_most_min _ _ _ _ _ exact Hinfo Hr').
  rewrite Hexact. apply Qle_refl.
Qed.

Lemma sizing_clamps_to_min_witness :
  calculate_safe_lot_size fx_terminal "USDJPY" 50 50 =
  {| stdout := []; returned := inr 0.01 |}.
Proof.
  apply (sizing_clamps_to_min fx_terminal "USDJPY" fx_info 50 50 (0 # 100)).
  - reflexivity.
  - vm_compute. reflexivity.
  - reflexivity.
Defined.

(** C5.  EURUSD with tick value 1.0, tick size 0.00001, step 0.01,
    minimum 0.01, maximum 100, a risk amount of 50.0 and a stop of 50
    pips: the pip value is 10, the raw volume 0.1, and the sizing
    returns 0.10, which is the rounded size itself, within the limits,
    with nothing printed. *)
Theorem sizing_scenario_eurusd :
  symbol_info fx_terminal "EURUSD" = inr (Some fx_info) /\
  exists pv raw v : Q,
    pip_value "EURUSD" (trade_tick_value fx_info) (trade_tick_size fx_info)
      = inr pv /\
    pv == 10.0 /\
    raw_lot_size fx_info "EURUSD" 50.0 50 = inr raw /\
    raw == 0.1 /\
    rounded_lot_size fx_info "EURUSD" 50.0 50 = inr v /\
    calculate_safe_lot_size fx_terminal "EURUSD" 50.0 50 =
      {| stdout := []; returned := inr v |} /\
    v == 0.10 /\
    volume_min fx_info <= v <= volume_max fx_info.
Proof.
  split; [reflexivity|].
  eexists. eexists. eexists.
  split; [vm_compute; reflexivity|].
  split; [reflexivity|].
  split; [vm_compute; reflexivity|].
  split; [reflexivity|].
  split; [vm_compute; reflexivity|].
  split; [vm_compute; reflexivity|].
  split; [reflexivity|].
  split; vm_compute; discriminate.
Qed.

(** C10.  The sizing never lets an exception through.  It returns 0.01
    for a symbol the terminal does not know and when the call to the
    terminal raises; once the metadata is read, an exception of the
    [try] block, in particular the division by a zero tick size, step
    or stop distance, makes it print the message and return the
    minimum volume of the symbol. *)
Theorem sizing_is_total (mt5 : Mt5) (symbol : string)
    (risk_amount stop_loss_pips : Q) :
  let call := calculate_safe_lot_size mt5 symbol risk_amount stop_loss_pips in
  (exists v : Q, returned call = inr v) /\
  (symbol_info mt5 symbol = inr None ->
   call = {| stdout := []; returned := inr 0.01 |}) /\
  (forall e : pyexn,
      symbol_info mt5 symbol = inl e ->
      call = {| stdout := [ErrorCalculatingLotSize e];
                returned := inr 0.01 |}) /\
  (forall info : SymbolInfo,
      symbol_info mt5 symbol = inr (Some info) ->
      (forall e : pyexn,
          lot_size_body info symbol risk_amount stop_loss_pips = inl e ->
          call = {| stdout := [ErrorCalculatingLotSize e];
                    returned := inr (volume_min info) |}) /\
      (trade_tick_size info == 0 \/ volume_step info == 0 \/
       stop_loss_pips == 0 ->
       call = {| stdout := [ErrorCalculatingLotSize ZeroDivisionError];
                 returned := inr (volume_min info) |})).
Proof.
  cbv zeta. split; [apply sizing_returns|]. split; [|split].
  - intros Hnone. unfold calculate_safe_lot_size. rewrite Hnone. reflexivity.
  - intros e He. unfold calculate_safe_lot_size. rewrite He. reflexivity.
  - intros info Hinfo. split.
    + intros e He. rewrite (sizing_known_symbol _ _ _ _ _ Hinfo), He.
      reflexivity.
    + intros Hzero. apply sizing_zero_division; [exact Hinfo|].
      destruct Hzero as [H|[H|H]]; auto.
Qed.

(** The minimum volume of [inverted_info] is 2: the fallback after the
    metadata is read is that minimum, while an unknown symbol and a
    failing terminal give 0.01. *)
Lemma sizing_is_total_witness :
  calculate_safe_lot_size fx_terminal "XAUUSD" 50 50 =
    {| stdout := []; returned := inr 0.01 |} /\
  calculate_safe_lot_size broken_terminal "EURUSD" 50 50 =
    {| stdout := [ErrorCalculatingLotSize GatewayError];
       returned := inr 0.01 |} /\
  calculate_safe_lot_size (terminal_of inverted_info) "EURUSD" 50 0 =
    {| stdout := [ErrorCalculatingLotSize ZeroDivisionError];
       returned := inr 2 |}.
Proof.
  split; [|split].
  - apply (sizing_is_total fx_terminal "XAUUSD" 50 50). reflexivity.
  - apply (sizing_is_total broken_terminal "EURUSD" 50 50). reflexivity.
  - destruct (sizing_is_total (terminal_of inverted_info) "EURUSD" 50 0)
      as [_ [_ [_ Hread]]].
    apply (Hread inverted_info); [reflexivity|].
    right. right. reflexivity.
Defined.

(** ** Claims on the order levels *)

Lemma order_kind_levels (symbol order_type : string) (tick : Tick)
    (stop_loss_pips : Q) :
  let lv := order_levels symbol order_type tick stop_loss_pips in
  (upper order_type = "BUY" ->
   order_kind lv = ORDER_TYPE_BUY /\ price lv = ask tick) /\
  (upper order_type <> "BUY" ->
   order_kind lv = ORDER_TYPE_SELL /\ price lv = bid tick).
Proof.
  cbv zeta. unfold order_levels. split; intros Hdir.
  - apply String.eqb_eq in Hdir. rewrite Hdir.
    destruct (endswith symbol "JPY"); cbn; split; reflexivity.
  - apply String.eqb_neq in Hdir. rewrite Hdir.
    destruct (endswith symbol "JPY"); cbn; split; reflexivity.
Qed.



(** C6.  The stop-loss is one price distance away from the entry price
    and the take-profit two, the distance being the pips times the pip
    (0.0001, or 0.01 for a symbol in JPY, whose pips are first taken a
    hundredfold); so a buy of a symbol in JPY at price p with s pips
    has its stop-loss at p - (100 s) 0.01 and its take-profit at
    p + 2 (100 s) 0.01. *)
Theorem levels_distance (symbol order_type : string) (tick : Tick)
    (stop_loss_pips : Q) :
  let lv := order_levels symbol order_type tick stop_loss_pips in
  let distance := price_distance symbol stop_loss_pips in
  (upper order_type = "BUY" ->
   price lv = ask tick /\
   stop_loss lv == price lv - distance /\
   take_profit lv == price lv + 2 * distance) /\
  (upper order_type <> "BUY" ->
   price lv = bid tick /\
   stop_loss lv == price lv + distance /\
   take_profit lv == price lv - 2 * distance) /\
  (endswith symbol "JPY" = false -> distance == stop_loss_pips * 0.0001) /\
  (endswith symbol "JPY" = true ->
   distance == (100 * stop_loss_pips) * 0.01 /\
   (upper order_type = "BUY" ->
    stop_loss lv == ask tick - (100 * stop_loss_pips) * 0.01 /\
    take_profit lv == ask tick + 2 * (100 * stop_loss_pips) * 0.01)).
Proof.
  cbv zeta. unfold order_levels, price_distance, pip_unit.
  split; [|split; [|split]].
  - intros Hdir. apply String.eqb_eq in Hdir. rewrite Hdir.
    destruct (endswith symbol "JPY"); cbn;
      (split; [reflexivity|]); split; ring.
  - intros Hdir. apply String.eqb_neq in Hdir. rewrite Hdir.
    destruct (endswith symbol "JPY"); cbn;
      (split; [reflexivity|]); split; ring.
  - intros ->. reflexivity.
  - intros ->. split; [reflexivity|].
    intros Hdir. apply String.eqb_eq in Hdir. rewrite Hdir. cbn.
    split; ring.
Qed.

Lemma levels_distance_witness :
  let lv := order_levels "USDJPY" "buy" {| bid := 149.98; ask := 150 |} 50 in
  stop_loss lv == 150 - (100 * 50) * 0.01 /\
  take_profit lv == 150 + 2 * (100 * 50) * 0.01.
Proof.
  destruct (levels_distance "USDJPY" "buy" {| bid := 149.98; ask := 150 |} 50)
    as [_ [_ [_ Hjpy]]].
  destruct (Hjpy eq_refl) as [_ Hbuy].
  exact (Hbuy eq_refl).
Defined.

(** C7 (as stated, refuted).  The direction HOLD is neither buy nor
    sell, yet the levels of a sell are derived for it and
    [place_test_order] sends the sell order. *)
Lemma hold_is_sold :
  upper "HOLD" <> "BUY" /\ upper "HOLD" <> "SELL" /\
  order_kind (order_levels "EURUSD" "HOLD" fx_tick 50) = ORDER_TYPE_SELL /\
  exists request : Request,
    sent (place_test_order fx_terminal "EURUSD" "HOLD" 25.0) = Some request /\
    req_type request = ORDER_TYPE_SELL /\
    req_price request = bid fx_tick.
Proof.
  split; [vm_compute; discriminate|].
  split; [vm_compute; discriminate|].
  split; [reflexivity|].
  eexists. split; [vm_compute; reflexivity|]. split; reflexivity.
Qed.

(** C7 (amended).  The derivation of the levels has no error for the
    direction: every direction whose upper-case form is not BUY, be it
    sell or anything else, gets the levels of a sell at the bid price,
    and [place_test_order], when the terminal is up, the symbol valid
    and a quote at hand, sends them as a sell order. *)
Theorem other_direction_is_sell (mt5 : Mt5) (symbol order_type : string)
    (tick : Tick) (risk_amount : Q) :
  upper order_type <> "BUY" ->
  (forall stop_loss_pips : Q,
      let lv := order_levels symbol order_type tick stop_loss_pips in
      order_kind lv = ORDER_TYPE_SELL /\ price lv = bid tick /\
      stop_loss lv == bid tick + price_distance symbol stop_loss_pips /\
      take_profit lv == bid tick - 2 * price_distance symbol stop_loss_pips) /\
  (initialize mt5 = true ->
   validate_symbol mt5 symbol = inr true ->
   symbol_info_tick mt5 symbol = Some tick ->
   exists request : Request,
     sent (place_test_order mt5 symbol order_type risk_amount) = Some request /\
     req_type request = ORDER_TYPE_SELL /\
     req_price request = bid tick).
Proof.
  intros Hdir. split.
  - intros stop_loss_pips. cbv zeta.
    destruct (order_kind_levels symbol order_type tick stop_loss_pips)
      as [_ Hsell].
    destruct (Hsell Hdir) as [Hkind Hprice].
    split; [exact Hkind|]. split; [exact Hprice|].
    unfold order_levels, price_distance, pip_unit.
    apply String.eqb_neq in Hdir. rewrite Hdir.
    destruct (endswith symbol "JPY"); cbn; split; ring.
  - intros Hinit Hvalid Htick. unfold place_test_order.
    rewrite Hinit, Hvalid, Htick. cbn.
    destruct (sizing_returns mt5 symbol risk_amount 50) as [v Hv].
    rewrite Hv.
    destruct (order_kind_levels symbol order_type tick 50) as [_ Hsell].
    destruct (Hsell Hdir) as [Hkind Hprice].
    eexists. split; [reflexivity|]. cbn. split; assumption.
Qed.

Lemma other_direction_is_sell_witness :
  exists request : Request,
    sent (place_test_order fx_terminal "EURUSD" "hold" 25.0) = Some request /\
    req_type request = ORDER_TYPE_SELL.
Proof.
  destruct (other_direction_is_sell fx_terminal "EURUSD" "hold" fx_tick 25.0)
    as [_ Hplace]; [vm_compute; discriminate|].
  destruct Hplace as [request [Hsent [Hkind _]]]; try reflexivity.
  exists request. split; assumption.
Defined.

(** ** Claims on the configuration store *)

Lemma split_dot_nonempty (s : string) : split_dot s <> [].
Proof.
  destruct s as [|c rest]; cbn; [discriminate|].
  destruct (Ascii.eqb c "."); [discriminate|].
  destruct (split_dot rest); discriminate.
Qed.

(** The loop of [get] arrives at a value exactly when the keys address
    it through dictionaries. *)
Lemma get_loop_addresses (keys : list string) :
  forall config v : json,
    get_loop config keys = inr v <-> addresses config keys v.
Proof.
  induction keys as [|key keys IH]; intros config v; cbn.
  - split.
    + intros [= ->]. constructor.
    + intros H. inversion H. reflexivity.
  - split.
    + destruct config; cbn; try discriminate.
      destruct (entries !! key) as [child|] eqn:Hkey; cbn; [|discriminate].
      intros H. apply IH in H. econstructor; eassumption.
    + intros H. inversion H as [|entries key' keys' child v' Hkey Hrest]; subst.
      cbn. rewrite Hkey. cbn. apply IH, Hrest.
Qed.

(** The loop of [get] raises nothing but [KeyError] and [TypeError]. *)
Lemma get_loop_raises (keys : list string) :
  forall (config : json) (e : pyexn),
    get_loop config keys = inl e ->
    (exists key : string, e = KeyError key) \/ e = TypeError.
Proof.
  induction keys as [|key keys IH]; intros config e; cbn; [discriminate|].
  destruct config; cbn; try (intros [= <-]; now right).
  destruct (entries !! key) as [child|]; cbn.
  - apply IH.
  - intros [= <-]. left. eexists. reflexivity.
Qed.

(** C8.  [get] never raises; on a path that is absent from the
    document it returns the default it was given, and on a path that
    addresses a value it returns that value. *)
Theorem get_absent_default (config : json) (key_path : string)
    (default : json) :
  (exists v : json, get config key_path default = inr v) /\
  (absent config key_path -> get config key_path default = inr default) /\
  (forall v : json,
      addresses config (split_dot key_path) v ->
      get config key_path default = inr v).
Proof.
  unfold get, absent.
  destruct (get_loop config (split_dot key_path)) as [e|v] eqn:Hloop.
  - assert (Hdefault :
      match e with
      | KeyError _ | TypeError => ret default
      | _ => raise e
      end = inr default).
    { destruct (get_loop_raises _ _ _ Hloop) as [[key ->]| ->]; reflexivity. }
    rewrite Hdefault. split; [eexists; reflexivity|].
    split; [reflexivity|].
    intros v Hv. apply get_loop_addresses in Hv.
    rewrite Hloop in Hv. discriminate.
  - split; [eexists; reflexivity|]. split.
    + intros Habsent. exfalso. apply (Habsent v).
      apply get_loop_addresses, Hloop.
    + intros v' Hv'. apply get_loop_addresses in Hv'.
      rewrite Hloop in Hv'. exact Hv'.
Qed.

Lemma get_absent_default_witness :
  get sample_config "trading.max_daily_loss" (JInt 7) = inr (JInt 7) /\
  get sample_config "symbols.name" JNone = inr JNone /\
  get sample_config "trading.risk_amount" JNone = inr (JFloat 50.0).
Proof.
  split; [|split].
  - destruct (get_absent_default sample_config "trading.max_daily_loss"
                (JInt 7)) as [_ [Habsent _]].
    apply Habsent. intros v Hv. apply get_loop_addresses in Hv.
    vm_compute in Hv. discriminate.
  - destruct (get_absent_default sample_config "symbols.name" JNone)
      as [_ [Habsent _]].
    apply Habsent. intros v Hv. apply get_loop_addresses in Hv.
    vm_compute in Hv. discriminate.
  - destruct (get_absent_default sample_config "trading.risk_amount" JNone)
      as [_ [_ Hpresent]].
    apply Hpresent. apply get_loop_addresses. vm_compute. reflexivity.
Defined.

(** When the body of [set] ends without an exception, the loop of
    [get] along the same keys arrives at the value that was stored. *)
Lemma set_loop_get_loop (parents : list string) (final : string)
    (value : json) :
  forall config config' : json,
    set_loop config parents (ret final) value = (config', inr tt) ->
    get_loop config' (parents ++ [final]) = inr value.
Proof.
  induction parents as [|key parents IH]; intros config config'; cbn.
  - destruct config; cbn; try discriminate.
    intros [= <-]. cbn. rewrite lookup_insert_eq. reflexivity.
  - destruct (contains config key) as [e|present]; [discriminate|].
    destruct (if negb present then setitem config key (JDict ∅)
              else ret config) as [e|config1]; [discriminate|].
    destruct (getitem config1 key) as [e|child] eqn:Hchild; [discriminate|].
    destruct (set_loop child parents (ret final) value) as [child' r] eqn:Hrec.
    intros [= <- ->].
    destruct config1; cbn in Hchild; try discriminate.
    cbn. rewrite lookup_insert_eq. cbn. apply (IH child child'), Hrec.
Qed.

Lemma settable_fresh (parents : list string) :
  settable (JDict ∅) parents.
Proof.
  destruct parents as [|key parents].
  - apply settable_here.
  - apply settable_missing, lookup_empty.
Qed.

(** The body of [set] stopped on a value that is not a dictionary:
    an exception, nothing stored, and no settable path from there. *)
Ltac stopped_at_once :=
  right; split; [eexists; reflexivity|];
  split; [reflexivity|];
  let H := fresh in intros H; inversion H.

(** The body of [set] ends without an exception exactly on a settable
    path; an exception is raised before anything is stored, so the
    document is then as it was. *)
Lemma set_loop_outcome (parents : list string) (final : string)
    (value : json) :
  forall (config config' : json) (r : py unit),
    set_loop config parents (ret final) value = (config', r) ->
    (r = inr tt /\ settable config parents) \/
    ((exists e : pyexn, r = inl e) /\ config' = config /\
     ~ settable config parents).
Proof.
  induction parents as [|key parents IH]; intros config config' r.
  - destruct config; cbn; intros [= <- <-]; try stopped_at_once.
    left. split; [reflexivity | apply settable_here].
  - destruct config;
      try (cbn; intros [= <- <-]; stopped_at_once).
    + cbn. destruct (negb _); cbn; intros [= <- <-]; stopped_at_once.
    + cbn. destruct (negb _); cbn; intros [= <- <-]; stopped_at_once.
    + cbn. destruct (entries !! key) as [child|] eqn:Hkey.
      * rewrite bool_decide_true by (eexists; reflexivity). cbn.
        rewrite Hkey. cbn.
        destruct (set_loop child parents (ret final) value)
          as [child' r'] eqn:Hrec.
        intros [= <- <-].
        destruct (IH _ _ _ Hrec) as [[-> Hchild]|[Hexn [-> Hchild]]].
        -- left. split; [reflexivity|].
           eapply settable_entry; eassumption.
        -- right. split; [exact Hexn|]. split.
           ++ f_equal. apply insert_id, Hkey.
           ++ intros H. inversion H; subst; congruence.
      * rewrite bool_decide_false by (intros [x Hx]; discriminate). cbn.
        rewrite lookup_insert_eq. cbn.
        destruct (set_loop (JDict ∅) parents (ret final) value)
          as [child' r'] eqn:Hrec.
        intros [= <- <-].
        destruct (IH _ _ _ Hrec) as [[-> _]|[_ [_ Hchild]]].
        -- left. split; [reflexivity|]. apply settable_missing, Hkey.
        -- exfalso. apply Hchild, settable_fresh.
Qed.

Lemma split_dot_last (key_path : string) :
  exists final : string,
    last_key (split_dot key_path) = ret final /\
    split_dot key_path = (removelast (split_dot key_path) ++ [final])%list.
Proof.
  pose proof (split_dot_nonempty key_path) as Hne.
  destruct (exists_last Hne) as [parents [final Hkeys]].
  exists final. rewrite Hkeys. unfold last_key.
  rewrite last_snoc, removelast_last. split; reflexivity.
Qed.

(** C9.  When [set] returns [True], a [get] on the same path in the
    document it leaves returns the value that was set, whatever the
    default; and [set] returns [True] exactly on the paths whose
    intermediate segments address dictionaries or are missing from
    one. *)
Theorem get_after_set (config config' : json) (key_path : string)
    (value default : json) :
  (set config key_path value = (config', true) ->
   get config' key_path default = inr value) /\
  (settable config (removelast (split_dot key_path)) <->
   snd (set config key_path value) = true).
Proof.
  unfold set, get.
  destruct (split_dot_last key_path) as [final [Hfinal Hkeys]].
  rewrite Hfinal.
  destruct (set_loop config (removelast (split_dot key_path)) (ret final)
              value) as [config1 r] eqn:Hloop.
  split.
  - destruct r as [e|[]]; intros [= <-].
    rewrite Hkeys at 1.
    rewrite (set_loop_get_loop _ _ _ _ _ Hloop). reflexivity.
  - cbn [snd].
    destruct (set_loop_outcome _ _ _ _ _ _ Hloop)
      as [[-> Hsettable]|[[e ->] [_ Hnot]]].
    + split; [reflexivity | intros _; exact Hsettable].
    + split; [contradiction | discriminate].
Qed.

Lemma get_after_set_witness :
  get (fst (set sample_config "trading.risk_amount" (JFloat 75.0)))
    "trading.risk_amount" JNone = inr (JFloat 75.0) /\
  get (fst (set sample_config "mt5.connection.timeout" (JInt 60)))
    "mt5.connection.timeout" JNone = inr (JInt 60).
Proof.
  split.
  - eapply (get_after_set sample_config). vm_compute. reflexivity.
  - eapply (get_after_set sample_config). vm_compute. reflexivity.
Defined.

(** ** The sample inputs in binary64 *)

(** The sample inputs of the lot sizing give in binary64 the numbers
    they give in exact arithmetic: a pip value of 10.0, a raw volume of
    0.1 and a volume of 0.1 for EURUSD with a risk amount of 50.0; 0.1
    again with a minimum of 0.03 and a step of 0.02; 2 with a minimum
    of 2 and a maximum of 1; 0.01 for USDJPY, for a risk amount of 5
    and for a risk amount of -50; a division by zero for a tick size
    of zero. *)
Lemma binary64_samples :
  Binary64.pip_value "EURUSD" (Binary64.of_Q 1.0) (Binary64.of_Q 0.00001)
    = inr (Binary64.of_Q 10.0) /\
  Binary64.raw_lot_size "EURUSD" (Binary64.of_Q 1.0) (Binary64.of_Q 0.00001)
    (Binary64.of_Q 50.0) (Binary64.of_Q 50) = inr (Binary64.of_Q 0.1) /\
  Binary64.run fx_info "EURUSD" 50.0 50 = inr (Binary64.of_Q 0.10) /\
  Binary64.run odd_step_info "EURUSD" 50 50 = inr (Binary64.of_Q 0.10) /\
  Binary64.run inverted_info "EURUSD" 50 50 = inr (Binary64.of_Q 2) /\
  Binary64.run fx_info "USDJPY" 50 50 = inr (Binary64.of_Q 0.01) /\
  Binary64.run fx_info "EURUSD" 5 50 = inr (Binary64.of_Q 0.01) /\
  Binary64.run fx_info "EURUSD" (-50) 50 = inr (Binary64.of_Q 0.01) /\
  Binary64.run no_tick_size_info "EURUSD" 50 50 = inl ZeroDivisionError.
Proof. repeat split; vm_compute; reflexivity. Qed.

(** Comparing two floats the other way round gives the opposite
    answer. *)
Lemma SFcompare_opp (x y : spec_float) (c : comparison) :
  SFcompare x y = Some c -> SFcompare y x = Some (CompOpp c).
Proof.
  destruct x as [sx|sx| |sx mx ex], y as [sy|sy| |sy my ey]; cbn;
    try discriminate; intros [= <-];
    try (destruct sx; reflexivity);
    try (destruct sy; reflexivity);
    try (destruct sx, sy; reflexivity).
  destruct sx, sy; try reflexivity;
    rewrite (Z.compare_antisym ex ey);
    destruct (ex ?= ey)%Z; cbn; try reflexivity; f_equal.
  - rewrite CompOpp_involutive.
    exact (Pos.compare_cont_antisym my mx Eq).
  - symmetry. exact (Pos.compare_cont_antisym mx my Eq).
Qed.

Lemma SFleb_refl (x y : spec_float) : SFleb x y = true -> SFleb y y = true.
Proof.
  unfold SFleb.
  destruct x as [sx|sx| |sx mx ex], y as [sy|sy| |sy my ey]; cbn;
    try discriminate; intros _;
    try reflexivity; try (destruct sy; reflexivity).
  all: destruct sy; rewrite Z.compare_refl;
    change (PosDef.Pos.compare_cont Eq my my) with (Pos.compare_cont Eq my my);
    rewrite Pos.compare_cont_refl; reflexivity.
Qed.

Lemma SFleb_refl_l (x y : spec_float) : SFleb x y = true -> SFleb x x = true.
Proof.
  unfold SFleb.
  destruct x as [sx|sx| |sx mx ex], y as [sy|sy| |sy my ey]; cbn;
    try discriminate; intros _;
    try reflexivity; try (destruct sx; reflexivity).
  all: destruct sx; rewrite Z.compare_refl;
    change (PosDef.Pos.compare_cont Eq mx mx) with (Pos.compare_cont Eq mx mx);
    rewrite Pos.compare_cont_refl; reflexivity.
Qed.

Lemma SFltb_leb (x y : spec_float) : SFltb x y = true -> SFleb x y = true.
Proof.
  unfold SFltb, SFleb. destruct (SFcompare x y) as [[]|]; congruence.
Qed.

(** The limits of lines 61-62 in binary64: when the minimum is not
    above the maximum, the size that comes out is between the two,
    whatever float went in, a NaN included. *)
Lemma binary64_limits_in_range (min_lot max_lot lot_size : spec_float) :
  SFleb min_lot max_lot = true ->
  let v := Binary64.fmax min_lot (Binary64.fmin lot_size max_lot) in
  SFleb min_lot v = true /\ SFleb v max_lot = true.
Proof.
  intros Hmm. cbv zeta. unfold Binary64.fmax.
  destruct (SFltb min_lot (Binary64.fmin lot_size max_lot)) eqn:Hlow.
  - split; [apply SFltb_leb, Hlow|].
    revert Hlow. unfold Binary64.fmin.
    destruct (SFltb max_lot lot_size) eqn:Hhigh; intros Hlow.
    + apply (SFleb_refl min_lot), Hmm.
    + unfold SFltb in Hhigh, Hlow. unfold SFleb in *.
      destruct (SFcompare min_lot lot_size) as [[]|] eqn:Hml;
        try discriminate.
      destruct (SFcompare max_lot lot_size) as [c|] eqn:Hcmp.
      * rewrite (SFcompare_opp _ _ _ Hcmp).
        destruct c; [reflexivity | discriminate | reflexivity].
      * exfalso.
        destruct min_lot, max_lot, lot_size; cbn in *; discriminate.
  - split; [|exact Hmm].
    apply (SFleb_refl_l min_lot max_lot), Hmm.
Qed.

(** X22.  A volume the [try] block returns in binary64 is between the
    limits of the symbol, when the minimum is not above the maximum,
    whatever floats the metadata and the arguments are. *)
Lemma binary64_body_in_range (symbol : string)
    (tick_value tick_size min_lot max_lot lot_step : spec_float)
    (risk_amount stop_loss_pips v : spec_float) :
  SFleb min_lot max_lot = true ->
  Binary64.lot_size_body symbol tick_value tick_size min_lot max_lot lot_step
    risk_amount stop_loss_pips = inr v ->
  SFleb min_lot v = true /\ SFleb v max_lot = true.
Proof.
  intros Hmm. unfold Binary64.lot_size_body.
  destruct (Binary64.raw_lot_size symbol tick_value tick_size risk_amount
              stop_loss_pips) as [e|raw]; cbn; [discriminate|].
  destruct (Binary64.fdiv raw lot_step) as [e|steps]; cbn; [discriminate|].
  destruct (Binary64.fround steps) as [e|n]; cbn; [discriminate|].
  intros [= <-]. apply binary64_limits_in_range, Hmm.
Qed.

(** ** More on [round] *)



(** [round] gives the same integer on equal rationals. *)
Lemma py_round_comp (x y : Q) : x == y -> py_round x = py_round y.
Proof.
  intros Hxy. unfold py_round.
  rewrite (Qfloor_comp _ _ Hxy).
  assert (Hc : Qcompare (x - inject_Z (Qfloor y)) (1 # 2) =
               Qcompare (y - inject_Z (Qfloor y)) (1 # 2)).
  { apply Qcompare_comp; [rewrite Hxy|]; reflexivity. }
  rewrite Hc. reflexivity.
Qed.

(** [round] leaves an integer as it is. *)
Lemma py_round_integer (n : Z) : py_round (inject_Z n) = n.
Proof.
  unfold py_round. rewrite Qfloor_Z.
  assert (Hc : Qcompare (inject_Z n - inject_Z n) (1 # 2) = Lt).
  { apply (proj1 (Qlt_alt _ _)). generalize (inject_Z n). intros q. lra. }
  rewrite Hc. reflexivity.
Qed.



(** ** More on the lot sizing *)


(** A size between the limits comes out as it is. *)
Lemma limits_inside (min_lot max_lot lot_size : Q) :
  min_lot <= lot_size <= max_lot ->
  py_max min_lot (py_min lot_size max_lot) == lot_size.
Proof.
  intros [Hlo Hhi]. unfold py_max, py_min.
  destruct (Qlt_le_dec max_lot lot_size); [lra|].
  destruct (Qlt_le_dec min_lot lot_size); lra.
Qed.

(** A size above the maximum comes out as the maximum. *)
Lemma limits_above_max (min_lot max_lot lot_size : Q) :
  min_lot <= max_lot -> max_lot < lot_size ->
  py_max min_lot (py_min lot_size max_lot) == max_lot.
Proof.
  intros Hmm Hgt. unfold py_max, py_min.
  destruct (Qlt_le_dec max_lot lot_size); [|lra].
  destruct (Qlt_le_dec min_lot max_lot); lra.
Qed.



(** X2.  When the raw size is a whole number of steps and lies between
    the limits, the sizing returns it unchanged and prints nothing. *)
Theorem sizing_exact_on_steps (mt5 : Mt5) (symbol : string) (info : SymbolInfo)
    (risk_amount stop_loss_pips raw : Q) (n : Z) :
  symbol_info mt5 symbol = inr (Some info) ->
  0 < trade_tick_value info -> 0 < trade_tick_size info ->
  0 < volume_step info -> ~ stop_loss_pips == 0 ->
  raw_lot_size info symbol risk_amount stop_loss_pips = inr raw ->
  raw == inject_Z n * volume_step info ->
  volume_min info <= raw <= volume_max info ->
  exists v : Q,
    calculate_safe_lot_size mt5 symbol risk_amount stop_loss_pips =
    {| stdout := []; returned := inr v |} /\
    v == raw.
Proof.
  intros Hinfo Htv Hts Hstep Hstop Hraw Hn Hrange.
  destruct (rounded_lot_size_regular info symbol risk_amount stop_loss_pips
              Htv Hts Hstep Hstop) as [_ [Hraw' Hr]].
  rewrite Hraw in Hraw'. injection Hraw' as Hraw'. rewrite <- Hraw' in Hr.
  assert (Hne : ~ volume_step info == 0) by lra.
  assert (Hsteps : raw / volume_step info == inject_Z n).
  { rewrite Hn. apply Qdiv_mult_l, Hne. }
  rewrite (py_round_comp _ _ Hsteps), py_round_integer in Hr.
  rewrite (sizing_known_symbol _ _ _ _ _ Hinfo).
  unfold lot_size_body. rewrite Hr. cbn.
  eexists. split; [reflexivity|].
  rewrite limits_inside; [symmetry; exact Hn|].
  rewrite <- Hn. exact Hrange.
Qed.

Lemma sizing_exact_on_steps_witness :
  exists v : Q,
    calculate_safe_lot_size fx_terminal "EURUSD" 125 50 =
    {| stdout := []; returned := inr v |} /\
    v == 0.25.
Proof.
  destruct (sizing_exact_on_steps fx_terminal "EURUSD" fx_info 125 50
              (125 / (50 * (1.0 * (0.0001 / 0.00001)))) 25)
    as [v [Hv Heq]]; try reflexivity; try discriminate.
  - split; discriminate.
  - exists v. split; [exact Hv|]. rewrite Heq. reflexivity.
Defined.








(** X6.  When the rounded size is above the maximum volume (and the
    minimum is not), the sizing returns the maximum volume and prints
    nothing. *)
Theorem sizing_clamps_to_max (mt5 : Mt5) (symbol : string) (info : SymbolInfo)
    (risk_amount stop_loss_pips rounded : Q) :
  symbol_info mt5 symbol = inr (Some info) ->
  rounded_lot_size info symbol risk_amount stop_loss_pips = inr rounded ->
  volume_min info <= volume_max info ->
  volume_max info < rounded ->
  exists v : Q,
    calculate_safe_lot_size mt5 symbol risk_amount stop_loss_pips =
    {| stdout := []; returned := inr v |} /\
    v == volume_max info.
Proof.
  intros Hinfo Hr Hmm Hgt.
  rewrite (sizing_known_symbol _ _ _ _ _ Hinfo).
  unfold lot_size_body. rewrite Hr. cbn.
  eexists. split; [reflexivity|].
  apply limits_above_max; assumption.
Qed.

Lemma sizing_clamps_to_max_witness :
  exists v : Q,
    calculate_safe_lot_size fx_terminal "EURUSD" 1000000 1 =
    {| stdout := []; returned := inr v |} /\
    v == 100.
Proof.
  eapply (sizing_clamps_to_max fx_terminal "EURUSD" fx_info 1000000 1);
    [reflexivity | vm_compute; reflexivity | discriminate | reflexivity].
Defined.

(** ** More on [set] and [get] *)

Import ConfigStore.

Lemma get_found (config : json) (key_path : string) (default : json) :
  get config key_path default =
  inr (match found (get_loop config (split_dot key_path)) with
       | Some v => v
       | None => default
       end).
Proof.
  unfold get.
  destruct (get_loop config (split_dot key_path)) as [e|v] eqn:Hloop;
    [|reflexivity].
  destruct (get_loop_raises _ _ _ Hloop) as [[key ->]| ->]; reflexivity.
Qed.

(** [set] as its loop, with the last key at hand. *)
Lemma set_as_loop (config : json) (key_path : string) (value : json) :
  exists (parents : list string) (final : string),
    split_dot key_path = (parents ++ [final])%list /\
    set config key_path value =
    (fst (set_loop config parents (ret final) value),
     match snd (set_loop config parents (ret final) value) with
     | inr _ => true
     | inl _ => false
     end).
Proof.
  destruct (split_dot_last key_path) as [final [Hfinal Hkeys]].
  exists (removelast (split_dot key_path)), final.
  split; [exact Hkeys|].
  unfold set. rewrite Hfinal.
  destruct (set_loop _ _ _ _); reflexivity.
Qed.

(** X7.  When [set] returns [False] the document is as it was. *)
Theorem set_failure_unchanged (config config' : json) (key_path : string)
    (value : json) :
  set config key_path value = (config', false) -> config' = config.
Proof.
  destruct (set_as_loop config key_path value)
    as [parents [final [_ ->]]].
  destruct (set_loop config parents (ret final) value) as [c r] eqn:Hloop.
  cbn [fst snd].
  destruct (set_loop_outcome _ _ _ _ _ _ Hloop)
    as [[-> _]|[[e ->] [-> _]]]; intros [= <-]; reflexivity.
Qed.

Lemma set_failure_unchanged_witness :
  fst (set sample_config "symbols.name" (JStr "EURUSD")) = sample_config.
Proof.
  apply (set_failure_unchanged sample_config _ "symbols.name" (JStr "EURUSD")).
  vm_compute. reflexivity.
Defined.




(** After a successful [set], a second [set] on the same path does
    what it would have done on the document before. *)
Lemma set_loop_overwrite (v w : json) (final : string) (parents : list string) :
  forall config config' : json,
    set_loop config parents (ret final) v = (config', inr tt) ->
    set_loop config' parents (ret final) w =
    set_loop config parents (ret final) w.
Proof.
  induction parents as [|key parents IH]; intros config config' Hset.
  - destruct config; cbn in Hset; try discriminate.
    injection Hset as <-. cbn. rewrite insert_insert_eq. reflexivity.
  - cbn in Hset.
    destruct config; cbn in Hset; try discriminate;
      try (destruct (negb _); cbn in Hset; discriminate).
    destruct (entries !! key) as [child|] eqn:Hkey.
    + rewrite bool_decide_true in Hset by (eexists; reflexivity).
      cbn in Hset. rewrite Hkey in Hset. cbn in Hset.
      destruct (set_loop child parents (ret final) v) as [child' r] eqn:Hrec.
      injection Hset as <- ->. cbn.
      rewrite bool_decide_true
        by (rewrite lookup_insert_eq; eexists; reflexivity).
      rewrite bool_decide_true by (eexists; exact Hkey).
      cbn. rewrite lookup_insert_eq, Hkey. cbn.
      rewrite (IH _ _ Hrec).
      destruct (set_loop child parents (ret final) w) as [child2 r2].
      rewrite insert_insert_eq. reflexivity.
    + rewrite bool_decide_false in Hset by (intros [x Hx]; discriminate).
      cbn in Hset. rewrite lookup_insert_eq in Hset. cbn in Hset.
      destruct (set_loop (JDict ∅) parents (ret final) v)
        as [child' r] eqn:Hrec.
      injection Hset as <- ->. cbn.
      rewrite bool_decide_true
        by (rewrite lookup_insert_eq; eexists; reflexivity).
      rewrite bool_decide_false by (rewrite Hkey; intros [x Hx]; discriminate).
      cbn. rewrite !lookup_insert_eq. cbn.
      rewrite (IH _ _ Hrec).
      destruct (set_loop (JDict ∅) parents (ret final) w) as [child2 r2].
      rewrite !insert_insert_eq. reflexivity.
Qed.

(** X9.  After a [set] that returned [True], a second [set] on the
    same path does exactly what it would have done in its place: the
    last value wins and nothing else of the first is left; in
    particular, setting the same value again changes nothing. *)
Theorem set_overwrites (config config' : json) (key_path : string)
    (v w : json) :
  set config key_path v = (config', true) ->
  set config' key_path w = set config key_path w /\
  set config' key_path v = (config', true).
Proof.
  intros Hset.
  assert (Hgen : forall u, set config' key_path u = set config key_path u).
  { intros u.
    destruct (split_dot_last key_path) as [final [Hfinal _]].
    unfold set in *. rewrite Hfinal in *.
    destruct (set_loop config (removelast (split_dot key_path)) (ret final) v)
      as [c r] eqn:Hloop.
    destruct r as [e|[]]; [discriminate|]. injection Hset as <-.
    rewrite (set_loop_overwrite _ u _ _ _ _ Hloop). reflexivity. }
  split; [apply Hgen|]. rewrite Hgen. exact Hset.
Qed.

Lemma set_overwrites_witness :
  set (fst (set sample_config "trading.risk_amount" (JFloat 75.0)))
    "trading.risk_amount" (JFloat 25.0) =
  set sample_config "trading.risk_amount" (JFloat 25.0).
Proof.
  apply (set_overwrites sample_config _ "trading.risk_amount" (JFloat 75.0)).
  vm_compute. reflexivity.
Defined.

(** The pieces of two paths joined by a dot are the pieces of the
    first followed by those of the second. *)
Lemma split_dot_join (p q : string) :
  split_dot (p ++ "." ++ q) = (split_dot p ++ split_dot q)%list.
Proof.
  change ("." ++ q) with (String "." q).
  induction p as [|c p IH]; [reflexivity|].
  change (String c p ++ String "." q) with (String c (p ++ String "." q)).
  cbn [split_dot]. rewrite IH.
  destruct (Ascii.eqb c "."); [reflexivity|].
  pose proof (split_dot_nonempty p) as Hne.
  destruct (split_dot p); [contradiction | reflexivity].
Qed.

Lemma get_loop_app (l1 l2 : list string) :
  forall config : json,
    get_loop config (l1 ++ l2) =
    (let* v := get_loop config l1 in get_loop v l2).
Proof.
  induction l1 as [|key l1 IH]; intros config; cbn; [reflexivity|].
  destruct (getitem config key) as [e|child]; cbn; [reflexivity|].
  apply IH.
Qed.

(** X10.  [get] on two paths joined by a dot is [get] on the second
    path inside the value the first one addresses, and the default
    when the first one is absent. *)
Theorem get_joined_path (config : json) (p q : string) (default : json) :
  (forall v : json,
      addresses config (split_dot p) v ->
      get config (p ++ "." ++ q) default = get v q default) /\
  (absent config p -> get config (p ++ "." ++ q) default = inr default).
Proof.
  split.
  - intros v Hv. apply get_loop_addresses in Hv.
    unfold get. rewrite split_dot_join, get_loop_app, Hv. reflexivity.
  - intros Habsent.
    rewrite get_found, split_dot_join, get_loop_app.
    destruct (get_loop config (split_dot p)) as [e|v] eqn:Hloop;
      [reflexivity|].
    exfalso. apply (Habsent v), get_loop_addresses, Hloop.
Qed.

Lemma get_joined_path_witness :
  get sample_config "trading.risk_amount" JNone =
  get (JDict {[ "risk_amount" := JFloat 50.0 ]}) "risk_amount" JNone /\
  get sample_config "analysis.macd_fast" (JInt 12) = inr (JInt 12).
Proof.
  split.
  - apply (get_joined_path sample_config "trading" "risk_amount" JNone).
    apply get_loop_addresses. vm_compute. reflexivity.
  - apply (get_joined_path sample_config "analysis" "macd_fast" (JInt 12)).
    intros v Hv. apply get_loop_addresses in Hv. vm_compute in Hv.
    discriminate.
Defined.

(** ** The validation and the loading of the document *)





(** On a dictionary the loop over the sections finds one missing
    exactly when one has no entry. *)
Lemma missing_section_dict (entries : gmap string json)
    (sections : list string) :
  exists missing : bool,
    missing_section (JDict entries) sections = inr missing /\
    (missing = false <->
     forall section, In section sections -> is_Some (entries !! section)).
Proof.
  induction sections as [|s sections [missing [IH Hiff]]]; cbn.
  - exists false. split; [reflexivity|].
    split; [intros _ section []|reflexivity].
  - destruct (entries !! s) as [v|] eqn:Hs.
    + rewrite bool_decide_true by (eexists; reflexivity). cbn.
      exists missing. split; [exact IH|]. rewrite Hiff. split.
      * intros H section [<-|Hin]; [eexists; exact Hs | apply H, Hin].
      * intros H section Hin. apply H. right. exact Hin.
    + rewrite bool_decide_false by (intros [x Hx]; discriminate). cbn.
      exists true. split; [reflexivity|]. split; [discriminate|].
      intros H. destruct (H s) as [x Hx]; [left; reflexivity|].
      rewrite Hs in Hx. discriminate.
Qed.




(** X12.  On a document with the five sections and a [trading]
    dictionary, [validate_config] does not return [False] but raises
    when [risk_amount] is missing ([KeyError]) or is not a number
    ([TypeError]), a string or [None] for instance. *)
Theorem validate_config_raises (entries trading : gmap string json) :
  (forall section, In section required_sections ->
                   is_Some (entries !! section)) ->
  entries !! "trading" = Some (JDict trading) ->
  (trading !! "risk_amount" = None ->
   validate_config (JDict entries) = inl (KeyError "risk_amount")) /\
  (forall v : json,
      trading !! "risk_amount" = Some v ->
      as_number v = inl TypeError ->
      validate_config (JDict entries) = inl TypeError).
Proof.
  intros Hsections Htrading.
  unfold validate_config.
  destruct (missing_section_dict entries required_sections)
    as [missing [Hmissing Hiff]].
  rewrite Hmissing. apply (proj2 Hiff) in Hsections. subst missing.
  cbn [bind ret getitem]. rewrite Htrading. cbn [bind ret getitem].
  split.
  - intros ->. reflexivity.
  - intros v -> Hv. cbn [bind ret]. unfold py_le. rewrite Hv. reflexivity.
Qed.

Lemma validate_config_raises_witness :
  validate_config (JDict text_risk_entries) = inl TypeError.
Proof.
  eapply (validate_config_raises text_risk_entries
            {[ "risk_amount" := JStr "50" ]}).
  - intros section Hin. cbn in Hin.
    destruct Hin as [<-|[<-|[<-|[<-|[<-|[]]]]]]; vm_compute;
      eexists; reflexivity.
  - reflexivity.
  - reflexivity.
  - reflexivity.
Defined.

(** X13.  [load_config] returns [True] exactly when the file holds a
    document that [validate_config] accepts.  Whenever the file holds
    a document, that document is the one of the manager afterwards,
    also when the validation rejected it or raised; and the file
    itself is changed only when it was missing. *)
Theorem load_config_verdict (self : manager) :
  let (self', ok) := load_config self in
  (ok = true <->
   exists document : json,
     config_file (on_disk self) = Holds document /\
     validate_config document = inr true) /\
  (forall document : json,
      config_file (on_disk self) = Holds document ->
      config self' = document) /\
  (config_file (on_disk self) <> Missing -> on_disk self' = on_disk self) /\
  (config_file (on_disk self) = Unreadable \/
   config_file (on_disk self) = Garbled -> self' = self).
Proof.
  unfold load_config.
  destruct (config_file (on_disk self)) as [| | |document] eqn:Hfile.
  - repeat split; try discriminate; try contradiction.
    + intros [d [Hd _]]. discriminate.
    + intros [H|H]; discriminate.
  - repeat split; try discriminate; try contradiction.
    intros [d [Hd _]]. discriminate.
  - repeat split; try discriminate; try contradiction.
    intros [d [Hd _]]. discriminate.
  - destruct (validate_config document) as [e|[]] eqn:Hvalid;
      repeat split; try discriminate; try reflexivity;
      try (intros [d [[= <-] Hd]]; congruence);
      try (intros d [= <-]; reflexivity);
      try (intros [H|H]; discriminate).
    intros _. exists document. split; [reflexivity | exact Hvalid].
Qed.

Lemma load_config_verdict_witness :
  snd (load_config sample_manager) = false /\
  config (fst (load_config sample_manager)) = sample_config.
Proof.
  pose proof (load_config_verdict sample_manager) as H.
  destruct (load_config sample_manager) as [self' ok].
  destruct H as [Hok [Hdoc _]]. cbn [fst snd]. split.
  - destruct ok; [|reflexivity].
    destruct (proj1 Hok eq_refl) as [d [[= <-] Hd]].
    vm_compute in Hd. discriminate.
  - apply Hdoc. reflexivity.
Defined.

(** On the empty document every path is absent. *)
Lemma get_empty (key_path : string) (default : json) :
  get (JDict ∅) key_path default = inr default.
Proof.
  rewrite get_found.
  pose proof (split_dot_nonempty key_path) as Hne.
  destruct (split_dot key_path) as [|key keys]; [contradiction|].
  cbn. rewrite lookup_empty. reflexivity.
Qed.

(** X14.  A manager made on a disk without the file: if the file can
    be written, it holds the default document afterwards, so does the
    manager, and a [load_config] then returns [True] and changes
    nothing; if the file cannot be written, the manager keeps the
    empty document, on which [get] gives the default for every
    path. *)
Theorem init_without_file (d : disk) :
  config_file d = Missing ->
  (writable d = true ->
   config (init d) = default_config /\
   config_file (on_disk (init d)) = Holds default_config /\
   load_config (init d) = (init d, true)) /\
  (writable d = false ->
   init d = {| config := JDict ∅; on_disk := d |} /\
   forall (key_path : string) (default : json),
     get (config (init d)) key_path default = inr default).
Proof.
  intros Hmissing. unfold init, load_config. cbn [on_disk].
  rewrite Hmissing. cbn [fst]. unfold create_default_config. cbn [on_disk].
  split; intros Hw; rewrite Hw.
  - cbn. split; [reflexivity|]. split; [reflexivity|].
    assert (Hvalid : validate_config default_config = inr true)
      by (vm_compute; reflexivity).
    rewrite Hvalid. reflexivity.
  - split; [reflexivity|]. intros key_path default. cbn [config].
    apply get_empty.
Qed.

Lemma init_without_file_witness :
  load_config (init blank_disk) = (init blank_disk, true).
Proof.
  apply (init_without_file blank_disk); reflexivity.
Defined.

(** What a successful [set] stored is what the loop of [get] arrives
    at, and so what [get] returns. *)
Lemma set_true_get_loop (config config' : json) (key_path : string)
    (value : json) :
  set config key_path value = (config', true) ->
  get_loop config' (split_dot key_path) = inr value.
Proof.
  destruct (set_as_loop config key_path value)
    as [parents [final [Hkeys ->]]].
  destruct (set_loop config parents (ret final) value) as [c r] eqn:Hloop.
  cbn [fst snd]. destruct r as [e|[]]; intros [= <-].
  rewrite Hkeys. apply (set_loop_get_loop _ _ _ _ _ Hloop).
Qed.

Lemma set_true_get (config config' : json) (key_path : string)
    (value default : json) :
  set config key_path value = (config', true) ->
  get config' key_path default = inr value.
Proof.
  intros Hset. unfold get.
  rewrite (set_true_get_loop _ _ _ _ Hset). reflexivity.
Qed.

(** X15.  A value that was set and saved is there again in a manager
    made anew on the same disk: after a [set] and a [save_config]
    that both returned [True], [get] on the new manager returns the
    value on that path, and the new manager has the very document
    that was saved. *)
Theorem set_save_reload (self saved : manager) (config' : json)
    (key_path : string) (value default : json) :
  set (config self) key_path value = (config', true) ->
  save_config {| config := config'; on_disk := on_disk self |}
    = (saved, true) ->
  config (init (on_disk saved)) = config' /\
  get (config (init (on_disk saved))) key_path default = inr value.
Proof.
  intros Hset Hsave. unfold save_config in Hsave. cbn [on_disk config] in Hsave.
  destruct (writable (on_disk self)); [|discriminate].
  injection Hsave as <-. cbn [on_disk].
  assert (Hinit :
    config (init {| config_file := Holds config'; writable := true |})
    = config').
  { unfold init, load_config. cbn [on_disk config_file].
    destruct (validate_config config') as [e|[]]; reflexivity. }
  rewrite Hinit. split; [reflexivity|].
  apply (set_true_get _ _ _ _ _ Hset).
Qed.

Lemma set_save_reload_witness :
  get (config (init (on_disk (fst (save_config
         {| config := fst (set default_config "trading.risk_amount"
                             (JFloat 75.0));
            on_disk := blank_disk |})))))
    "trading.risk_amount" JNone = inr (JFloat 75.0).
Proof.
  refine (proj2 (set_save_reload
                   {| config := default_config; on_disk := blank_disk |}
                   (fst (save_config
                      {| config := fst (set default_config
                                          "trading.risk_amount" (JFloat 75.0));
                         on_disk := blank_disk |}))
                   (fst (set default_config "trading.risk_amount"
                           (JFloat 75.0)))
                   "trading.risk_amount" (JFloat 75.0) JNone _ _)).
  - vm_compute. reflexivity.
  - reflexivity.
Defined.

(** ** The accessors of the document *)






(** X17.  On a dictionary [get_trading_config] gives what [get] gives
    for the path [trading] with an empty dictionary as default; on a
    document that is no dictionary the two part: [get] gives the
    default and [get_trading_config] raises [AttributeError].  After a
    [set] on a key inside [trading] that returned [True],
    [get_trading_config] gives a dictionary that has the value under
    that key. *)
Theorem trading_config_agrees_with_get (config : json) :
  (is_dict config ->
   exists v : json,
     get_trading_config config = inr v /\
     get config "trading" (JDict ∅) = inr v) /\
  (~ is_dict config ->
   get_trading_config config = inl AttributeError /\
   get config "trading" (JDict ∅) = inr (JDict ∅)) /\
  (forall (key : string) (value config' : json),
      split_dot key = [key] ->
      set config ("trading" ++ "." ++ key) value = (config', true) ->
      exists trading : gmap string json,
        get_trading_config config' = inr (JDict trading) /\
        trading !! key = Some value).
Proof.
  split; [|split].
  - intros [entries ->]. unfold get_trading_config, dict_get, get. cbn.
    destruct (entries !! "trading"); eexists; split; reflexivity.
  - intros Hnot. destruct config; try (split; reflexivity).
    exfalso. apply Hnot. eexists. reflexivity.
  - intros key value config' Hkey Hset.
    pose proof (set_true_get_loop _ _ _ _ Hset) as Hloop.
    rewrite split_dot_join, Hkey in Hloop.
    change (split_dot "trading") with ["trading"] in Hloop.
    apply get_loop_addresses in Hloop.
    inversion Hloop as [|entries k ks child v Htrading Hchild]; subst.
    inversion Hchild as [|trading k ks child' v Hvalue Hend]; subst.
    inversion Hend; subst.
    exists trading. split; [|exact Hvalue].
    unfold get_trading_config, dict_get. rewrite Htrading. reflexivity.
Qed.

Lemma trading_config_agrees_with_get_witness :
  exists trading : gmap string json,
    get_trading_config
      (fst (set sample_config "trading.risk_amount" (JFloat 75.0)))
    = inr (JDict trading) /\
    trading !! "risk_amount" = Some (JFloat 75.0).
Proof.
  destruct (trading_config_agrees_with_get sample_config) as [_ [_ Hset]].
  apply (Hset "risk_amount"); [reflexivity|].
  vm_compute. reflexivity.
Defined.

(** ** The order that is sent *)


Lemma validate_symbol_true (mt5 : Mt5) (symbol : string) :
  validate_symbol mt5 symbol = inr true <->
  exists info : SymbolInfo,
    symbol_info mt5 symbol = inr (Some info) /\
    (visible info = true \/ symbol_select mt5 symbol = true).
Proof.
  unfold validate_symbol.
  destruct (symbol_info mt5 symbol) as [e|[info|]]; cbn.
  - split; [discriminate | intros [i [Hi _]]; discriminate].
  - destruct (visible info) eqn:Hvis;
      destruct (symbol_select mt5 symbol) eqn:Hsel; cbn; split;
      first [ discriminate
            | intros _; reflexivity
            | intros _; exists info; split; [reflexivity | auto]
            | intros [i [[= <-] [H|H]]]; congruence ].
  - split; [discriminate | intros [i [Hi _]]; discriminate].
Qed.

(** X18.  [place_test_order] sends an order exactly when the terminal
    starts, the symbol is known and visible or made visible, and
    there is a quote; it returns [True] only when it sent an order
    that the terminal acknowledged as done. *)
Theorem order_sent_iff (mt5 : Mt5) (symbol order_type : string)
    (risk_amount : Q) :
  let placement := place_test_order mt5 symbol order_type risk_amount in
  (is_Some (sent placement) <->
   initialize mt5 = true /\
   (exists info : SymbolInfo,
       symbol_info mt5 symbol = inr (Some info) /\
       (visible info = true \/ symbol_select mt5 symbol = true)) /\
   is_Some (symbol_info_tick mt5 symbol)) /\
  (success placement = true ->
   exists request : Request,
     sent placement = Some request /\
     order_send mt5 request = TRADE_RETCODE_DONE mt5).
Proof.
  cbv zeta. unfold place_test_order.
  rewrite <- validate_symbol_true.
  destruct (initialize mt5); cbn [negb].
  2: { split; [|discriminate]. split.
       - intros [x Hx]. discriminate.
       - intros [H _]. discriminate. }
  destruct (validate_symbol mt5 symbol) as [e|[]].
  1, 3: split; [|discriminate]; split;
    [intros [x Hx]; discriminate | intros [_ [H _]]; discriminate].
  destruct (symbol_info_tick mt5 symbol) as [tick|].
  2: { split; [|discriminate]. split.
       - intros [x Hx]. discriminate.
       - intros [_ [_ [x Hx]]]. discriminate. }
  destruct (sizing_returns mt5 symbol risk_amount 50) as [v Hv].
  rewrite Hv. cbn [sent success]. split.
  - split; [intros _|intros _; eexists; reflexivity].
    split; [reflexivity|]. split; [reflexivity | eexists; reflexivity].
  - intros Hdone. eexists. split; [reflexivity|].
    apply Z.eqb_eq, Hdone.
Qed.

Lemma order_sent_iff_witness :
  is_Some (sent (place_test_order fx_terminal "EURUSD" "BUY" 25.0)) /\
  ~ is_Some (sent (place_test_order fx_terminal "XAUUSD" "BUY" 25.0)).
Proof.
  split.
  - apply (order_sent_iff fx_terminal "EURUSD" "BUY" 25.0).
    split; [reflexivity|]. split; [|eexists; reflexivity].
    exists fx_info. split; [reflexivity | now left].
  - intros Hsent.
    apply (order_sent_iff fx_terminal "XAUUSD" "BUY" 25.0) in Hsent.
    destruct Hsent as [_ [[info [Hinfo _]] _]]. discriminate.
Defined.



(** ** The account checks *)





(** ** The limits in binary64 *)

Lemma binary64_body_in_range_witness :
  exists v : spec_float,
    Binary64.run fx_info "EURUSD" 50.0 50 = inr v /\
    SFleb (Binary64.of_Q 0.01) v = true /\
    SFleb v (Binary64.of_Q 100) = true.
Proof.
  eexists. split; [vm_compute; reflexivity|].
  apply (binary64_body_in_range "EURUSD" (Binary64.of_Q 1.0)
           (Binary64.of_Q 0.00001) _ _ (Binary64.of_Q 0.01)
           (Binary64.of_Q 50.0) (Binary64.of_Q 50));
    vm_compute; reflexivity.
Defined.
